(** * Message feed client: account codec, transaction composer,
      feed synchronizer, bootstrap poller and ban reader

    A shallow embedding of [message-feed.js].  The source comes in two
    revisions: the current one (with user accounts and bans) is embedded at
    top level, the earlier one (no user accounts, two-pointer message layout)
    in [Module Legacy].

    Conventions of the embedding.
    - A [PublicKey] is the 256-bit number web3.js keeps in its [_bn] field;
      [new PublicKey(buffer)] reads the buffer big-endian.
    - A [Buffer] is a [list byte].  A JavaScript string is represented by the
      bytes of its UTF-8 encoding (a Rocq [string] is a sequence of bytes), so
      [Buffer.from(text)] is [list_byte_of_string text], and
      [buffer.toString('utf-8')] is [toString_utf8], which puts U+FFFD in
      the place of ill-formed bytes.
    - The ledger seen through a [Connection] is a finite map from keys to
      account infos; a key that is absent is an account that does not exist,
      for which [getAccountInfo] yields [null].
    - Asynchronous code is sequential ([await] after every call), so a
      function is a state transformer over a chronological trace of the
      effects it performs; an exception is an outcome [Throw].
    - [for (;;)] loops take a fuel argument, one unit per iteration, and
      yield [None] when it runs out. *)

From Stdlib Require Import NArith ZArith Lia.
From Stdlib.Strings Require Import Byte HexString.
From stdpp Require Import base relations list gmap strings.

Open Scope N_scope.

(** ** Runtime values: errors and outcomes *)

Record JsError := { err_name : string; err_message : string }.

Definition TypeError (msg : string) : JsError :=
  {| err_name := "TypeError"; err_message := msg |}.
Definition RangeError (msg : string) : JsError :=
  {| err_name := "RangeError"; err_message := msg |}.
Definition Error (msg : string) : JsError :=
  {| err_name := "Error"; err_message := msg |}.

Inductive outcome (A : Type) : Type :=
| Return (a : A)
| Throw (e : JsError).
Arguments Return {A} a.
Arguments Throw {A} e.

(** ** Public keys (web3.js [PublicKey]) *)

Abbreviation PublicKey := N (only parsing).
Abbreviation Buffer := (list byte) (only parsing).

(** [new BN(buffer)]: big-endian, the empty buffer is zero. *)
Definition BN_of_bytes (b : Buffer) : N :=
  fold_left (fun acc x => acc * 256 + Byte.to_N x) b 0.

(** [BN.byteLength()] is [ceil(bitLength / 8)]. *)
Definition byteLength (n : N) : N := (N.size n + 7) / 8.

(** [new PublicKey(value)] for a [Buffer]: rejects numbers wider than 32
    bytes. *)
Definition new_PublicKey (value : Buffer) : outcome PublicKey :=
  let bn := BN_of_bytes value in
  if 32 <? byteLength bn then Throw (Error "Invalid public key input")
  else Return bn.

(** [new PublicKey(0)]. *)
Definition emptyMessage : PublicKey := 0.

(** [PublicKey.equals]. *)
Definition equals (a b : PublicKey) : bool := a =? b.

Record Account := { publicKey : PublicKey }.

(** ** buffer-layout decoders, as the source uses them *)

(** [BufferLayout.blob(span).decode(b, offset)] is
    [b.slice(offset, offset + span)]; [slice] clamps to the buffer. *)
Definition blob_decode (span : nat) (b : Buffer) (offset : nat) : Buffer :=
  take span (drop offset b).

(** [BufferLayout.u8().decode(b, offset)] is [b.readUIntLE(offset, 1)],
    which raises a [RangeError] outside of the buffer. *)
Definition u8_decode (b : Buffer) (offset : nat) : outcome N :=
  match b !! offset with
  | Some x => Return (Byte.to_N x)
  | None => Throw (RangeError "Index out of range")
  end.

Definition is_nul (x : byte) : bool := Byte.to_N x =? 0.

(** [CString.getSpan]: scan from [offset] to the first NUL or to the end of
    the buffer, and count one more for the terminator. *)
Fixpoint strlen (b : Buffer) : nat :=
  match b with
  | [] => O
  | x :: b' => if is_nul x then O else S (strlen b')
  end.

Definition cstr_getSpan (b : Buffer) (offset : nat) : nat :=
  (1 + strlen (drop offset b))%nat.

(** [buffer.toString('utf-8')] decodes the bytes as UTF-8; every maximal
    ill-formed part of the input (a byte that cannot start a sequence, a
    sequence cut short, an overlong or surrogate form) becomes one U+FFFD,
    and decoding resumes at the byte that did not fit.  The resulting
    string is represented, like every string here, by the bytes of its
    UTF-8 encoding. *)
Definition in_range (lo hi x : N) : bool := (lo <=? x) && (x <=? hi).

Definition REPLACEMENT : N := 0xFFFD.

(** The code points of a byte sequence. *)
Fixpoint utf8_decode (b : list N) : list N :=
  match b with
  | [] => []
  | b0 :: rest =>
      if b0 <=? 0x7F then b0 :: utf8_decode rest
      else if in_range 0xC2 0xDF b0 then
        match rest with
        | [] => [REPLACEMENT]
        | b1 :: r1 =>
            if in_range 0x80 0xBF b1
            then (b0 - 0xC0) * 64 + (b1 - 0x80) :: utf8_decode r1
            else REPLACEMENT :: utf8_decode rest
        end
      else if in_range 0xE0 0xEF b0 then
        let lower := if b0 =? 0xE0 then 0xA0 else 0x80 in
        let upper := if b0 =? 0xED then 0x9F else 0xBF in
        match rest with
        | [] => [REPLACEMENT]
        | b1 :: r1 =>
            if in_range lower upper b1 then
              match r1 with
              | [] => [REPLACEMENT]
              | b2 :: r2 =>
                  if in_range 0x80 0xBF b2
                  then (b0 - 0xE0) * 4096 + (b1 - 0x80) * 64 + (b2 - 0x80)
                       :: utf8_decode r2
                  else REPLACEMENT :: utf8_decode r1
              end
            else REPLACEMENT :: utf8_decode rest
        end
      else if in_range 0xF0 0xF4 b0 then
        let lower := if b0 =? 0xF0 then 0x90 else 0x80 in
        let upper := if b0 =? 0xF4 then 0x8F else 0xBF in
        match rest with
        | [] => [REPLACEMENT]
        | b1 :: r1 =>
            if in_range lower upper b1 then
              match r1 with
              | [] => [REPLACEMENT]
              | b2 :: r2 =>
                  if in_range 0x80 0xBF b2 then
                    match r2 with
                    | [] => [REPLACEMENT]
                    | b3 :: r3 =>
                        if in_range 0x80 0xBF b3
                        then (b0 - 0xF0) * 262144 + (b1 - 0x80) * 4096
                             + (b2 - 0x80) * 64 + (b3 - 0x80)
                             :: utf8_decode r3
                        else REPLACEMENT :: utf8_decode r2
                    end
                  else REPLACEMENT :: utf8_decode r1
              end
            else REPLACEMENT :: utf8_decode rest
        end
      else REPLACEMENT :: utf8_decode rest
  end.

(** The bytes of a code point. *)
Definition utf8_encode (c : N) : list N :=
  if c <=? 0x7F then [c]
  else if c <=? 0x7FF then [0xC0 + c / 64; 0x80 + c mod 64]
  else if c <=? 0xFFFF then
    [0xE0 + c / 4096; 0x80 + (c / 64) mod 64; 0x80 + c mod 64]
  else
    [0xF0 + c / 262144; 0x80 + (c / 4096) mod 64; 0x80 + (c / 64) mod 64;
     0x80 + c mod 64].

(** Well-formed UTF-8: ASCII bytes and sequences of two to four bytes in
    shortest form, below U+110000 and outside the surrogates. *)
Fixpoint well_formed_utf8 (b : list N) : bool :=
  match b with
  | [] => true
  | b0 :: rest =>
      if b0 <=? 0x7F then well_formed_utf8 rest
      else if in_range 0xC2 0xDF b0 then
        match rest with
        | b1 :: r1 => in_range 0x80 0xBF b1 && well_formed_utf8 r1
        | [] => false
        end
      else if in_range 0xE0 0xEF b0 then
        match rest with
        | b1 :: b2 :: r2 =>
            in_range (if b0 =? 0xE0 then 0xA0 else 0x80)
              (if b0 =? 0xED then 0x9F else 0xBF) b1
            && in_range 0x80 0xBF b2 && well_formed_utf8 r2
        | _ => false
        end
      else if in_range 0xF0 0xF4 b0 then
        match rest with
        | b1 :: b2 :: b3 :: r3 =>
            in_range (if b0 =? 0xF0 then 0x90 else 0x80)
              (if b0 =? 0xF4 then 0x8F else 0xBF) b1
            && in_range 0x80 0xBF b2 && in_range 0x80 0xBF b3
            && well_formed_utf8 r3
        | _ => false
        end
      else false
  end.



Definition byte_of_N (n : N) : byte := default x00 (Byte.of_N n).

Definition toString_utf8 (b : Buffer) : string :=
  String.string_of_list_byte
    (map byte_of_N (flat_map utf8_encode (utf8_decode (map Byte.to_N b)))).

(** A string whose bytes are well-formed UTF-8. *)
Definition valid_text (s : string) : bool :=
  well_formed_utf8 (map Byte.to_N (String.list_byte_of_string s)).

(** [CString.decode]:
    [b.slice(offset, offset + span - 1).toString('utf-8')]. *)
Definition cstr_decode (b : Buffer) (offset : nat) : string :=
  toString_utf8 (take (cstr_getSpan b offset - 1)%nat (drop offset b)).

(** [CString.encode]: the bytes of the string, then one NUL. *)
Definition cstr_encode (s : string) : Buffer :=
  String.list_byte_of_string s ++ [x00].

(** ** Ledger and effects *)

Record AccountInfo := { data : Buffer; owner : PublicKey }.

Abbreviation Connection := (gmap N AccountInfo) (only parsing).

(** The observer handed over as [onNewMessage] is opaque: it is known by a
    number, and a call of it is an event of the trace.  It is taken to
    return normally and to leave the view alone. *)
Definition Callback := nat.

Inductive event : Type :=
| EvGetAccountInfo (key : PublicKey)
| EvLoadingMessage (message : PublicKey)
| EvCall (f : Callback)
| EvFetch (url : string)
| EvWaiting
| EvConsoleError (err : JsError)
| EvSleep (ms : Z).

Abbreviation Trace := (list event) (only parsing).

Definition M (A : Type) : Type := Trace -> Trace * outcome A.

Definition ret {A} (a : A) : M A := fun t => (t, Return a).
Definition throw {A} (e : JsError) : M A := fun t => (t, Throw e).
Definition bind {A B} (m : M A) (k : A -> M B) : M B :=
  fun t =>
    match m t with
    | (t', Return a) => k a t'
    | (t', Throw e) => (t', Throw e)
    end.
Definition emit (e : event) : M unit := fun t => (t ++ [e], Return tt).
Definition lift {A} (o : outcome A) : M A := fun t => (t, o).

Notation "x <- m ;; k" := (bind m (fun x => k))
  (at level 100, m at next level, right associativity).
Notation "m ;;; k" := (bind m (fun _ => k))
  (at level 100, right associativity).

(** [connection.getAccountInfo(key)], for a request the node answers: the
    account at the key, or [null] when there is none.  A request that is
    not answered rejects the promise; such runs are not represented, and
    every statement about a read is about an answered one. *)
Definition getAccountInfo (connection : Connection) (key : PublicKey)
  : M (option AccountInfo) :=
  emit (EvGetAccountInfo key) ;;; ret (connection !! key).

(** ** User accounts: [userBanned] *)

Record UserAccountData := { banned : N; creator : Buffer }.

(** [BufferLayout.struct([u8('banned'), publicKeyLayout('creator')])]. *)
Definition userAccountDataLayout_decode (b : Buffer)
  : outcome UserAccountData :=
  match u8_decode b 0 with
  | Throw e => Throw e
  | Return flag =>
      Return {| banned := flag; creator := blob_decode 32 b 1 |}
  end.

Definition userBanned (connection : Connection) (user : PublicKey) : M bool :=
  accountInfo <- getAccountInfo connection user ;;
  match accountInfo with
  | None => throw (TypeError "Cannot read property 'data' of null")
  | Some info =>
      userAccountData <- lift (userAccountDataLayout_decode (data info)) ;;
      ret (negb (banned userAccountData =? 0))
  end.

(** ** Message accounts: [readMessage] *)

Record MessageData := {
  nextMessage : PublicKey;
  from : PublicKey;
  programId : PublicKey;
  text : string;
}.

(** What [messageAccountDataLayout.decode] yields: three 32-byte blobs and
    a C string, at the offsets 0, 32, 64 and 96. *)
Record MessageAccountData := {
  raw_nextMessage : Buffer;
  raw_from : Buffer;
  raw_creator : Buffer;
  raw_text : string;
}.

Definition messageAccountDataLayout_decode (b : Buffer) : MessageAccountData :=
  {| raw_nextMessage := blob_decode 32 b 0;
     raw_from := blob_decode 32 b 32;
     raw_creator := blob_decode 32 b 64;
     raw_text := cstr_decode b 96 |}.

(** The number of bytes [messageAccountDataLayout.encode] writes for a
    message with the given text: three blobs and the C string with its
    terminator. *)
Definition messageAccountDataLayout_span (text : string) : nat :=
  (32 + 32 + 32 + length (cstr_encode text))%nat.

Definition readMessage (connection : Connection) (message : PublicKey)
  : M MessageData :=
  accountInfo <- getAccountInfo connection message ;;
  match accountInfo with
  | None => throw (TypeError "Cannot read property 'data' of null")
  | Some info =>
      let messageAccountData := messageAccountDataLayout_decode (data info) in
      next <- lift (new_PublicKey (raw_nextMessage messageAccountData)) ;;
      author <- lift (new_PublicKey (raw_from messageAccountData)) ;;
      ret {| nextMessage := next;
             from := author;
             programId := owner info;
             text := raw_text messageAccountData |}
  end.

(** ** Feed synchronizer: [refreshMessageFeed] *)

Record Message := {
  m_publicKey : PublicKey;
  m_from : PublicKey;
  m_name : string;
  m_text : string;
}.

Section Synchronizer.
(** [publicKeyToName] lives in [util/publickey-to-name]; it is a pure
    function of the key. *)
Variable publicKeyToName : PublicKey -> string.

Definition newMessage (message : PublicKey) (messageData : MessageData)
  : Message :=
  {| m_publicKey := message;
     m_from := from messageData;
     m_name := publicKeyToName (from messageData);
     m_text := text messageData |}.

(** [onNewMessage && onNewMessage()]. *)
Definition notify (onNewMessage : option Callback) (t : Trace) : Trace :=
  match onNewMessage with
  | Some f => t ++ [EvCall f]
  | None => t
  end.

(** The loop of [refreshMessageFeed].  The array [messages] is mutated in
    place, so it is returned whatever the outcome. *)
Fixpoint refreshMessageFeed (fuel : nat) (connection : Connection)
    (messages : list Message) (onNewMessage : option Callback)
    (message : option PublicKey) (t : Trace)
  : option (Trace * list Message * outcome unit) :=
  match fuel with
  | O => None
  | S fuel' =>
      let continue (message : PublicKey) (t : Trace) :=
        if equals message emptyMessage then Some (t, messages, Return tt)
        else
          match readMessage connection message (t ++ [EvLoadingMessage message]) with
          | (t, Throw e) => Some (t, messages, Throw e)
          | (t, Return messageData) =>
              refreshMessageFeed fuel' connection
                (messages ++ [newMessage message messageData])
                onNewMessage (Some (nextMessage messageData))
                (notify onNewMessage t)
          end in
      match message with
      | Some message => continue message t
      | None =>
          match last messages with
          | None => Some (t, messages, Return tt)
          | Some lastMessage =>
              match readMessage connection (m_publicKey lastMessage) t with
              | (t, Throw e) => Some (t, messages, Throw e)
              | (t, Return lastMessageData) =>
                  continue (nextMessage lastMessageData) t
              end
          end
      end
  end.
End Synchronizer.

(** ** Transaction composer: [postMessageWithProgramId] *)

Record AccountMeta := { pubkey : PublicKey; isSigner : bool }.

Inductive TransactionInstruction : Type :=
| SystemProgram_createAccount (fromPubkey newAccountPubkey : PublicKey)
    (lamports : Z) (space : nat) (program : PublicKey)
| Instruction (keys : list AccountMeta) (program : PublicKey)
    (payload : option Buffer).

Record Transaction := { instructions : list TransactionInstruction }.

Definition new_Transaction : Transaction := {| instructions := [] |}.

Definition add (transaction : Transaction) (item : TransactionInstruction)
  : Transaction :=
  {| instructions := instructions transaction ++ [item] |}.

(** The body of [postMessageWithProgramId] between the funding of the payer
    and the submission: the transaction built and the signers handed to
    [sendAndConfirmTransaction].  [fresh] is the account [new Account()]
    yields when [userAccount] is [null]. *)
Definition postMessageWithProgramId_compose
    (payerAccount fresh : Account) (program : PublicKey)
    (userAccount : option Account) (messageAccount : Account)
    (text : string) (previousMessagePublicKey userToBan : option PublicKey)
  : Transaction * list Account :=
  let transaction := new_Transaction in
  let textBuffer := String.list_byte_of_string text in
  let transaction :=
    add transaction
      (SystemProgram_createAccount (publicKey payerAccount)
         (publicKey messageAccount) 1
         (32 + 32 + 32 + length textBuffer)%nat program) in
  let '(userAccount, transaction) :=
    match userAccount with
    | Some userAccount => (userAccount, transaction)
    | None =>
        let userAccount := fresh in
        let transaction :=
          add transaction
            (SystemProgram_createAccount (publicKey payerAccount)
               (publicKey userAccount) 1 (1 + 32)%nat program) in
        let keys :=
          [ {| pubkey := publicKey userAccount; isSigner := true |};
            {| pubkey := publicKey messageAccount; isSigner := true |} ] in
        (userAccount, add transaction (Instruction keys program None))
    end in
  let keys :=
    [ {| pubkey := publicKey userAccount; isSigner := true |};
      {| pubkey := publicKey messageAccount; isSigner := true |} ] in
  let keys :=
    match previousMessagePublicKey with
    | Some previous =>
        let keys := keys ++ [ {| pubkey := previous; isSigner := false |} ] in
        match userToBan with
        | Some target => keys ++ [ {| pubkey := target; isSigner := false |} ]
        | None => keys
        end
    | None => keys
    end in
  let transaction := add transaction (Instruction keys program (Some textBuffer)) in
  (transaction, [payerAccount; userAccount; messageAccount]).

Definition TransactionSignature := string.

Section Composer.
(** External collaborators: the airdrop helper of
    [util/new-system-account-with-airdrop], the key generator behind
    [new Account()], and web3.js's [sendAndConfirmTransaction]. *)
Variable newSystemAccountWithAirdrop : Z -> outcome Account.
Variable new_Account : Account.
Variable sendAndConfirmTransaction :
  Transaction -> list Account -> outcome TransactionSignature.

Definition postMessageWithProgramId (program : PublicKey)
    (userAccount : option Account) (messageAccount : Account)
    (text : string) (previousMessagePublicKey userToBan : option PublicKey)
  : outcome TransactionSignature :=
  let fee := 100%Z in
  match newSystemAccountWithAirdrop (100 + fee)%Z with
  | Throw e => Throw e
  | Return payerAccount =>
      let '(transaction, signers) :=
        postMessageWithProgramId_compose payerAccount new_Account program
          userAccount messageAccount text previousMessagePublicKey
          userToBan in
      sendAndConfirmTransaction transaction signers
  end.
End Composer.

(** The keys of the last instruction of a transaction, the one that posts
    the message. *)
Definition post_keys (transaction : Transaction) : list AccountMeta :=
  match last (instructions transaction) with
  | Some (Instruction keys _ _) => keys
  | _ => []
  end.

(** ** Bootstrap poller: [getFirstMessage] *)

(** The values [response.json()] can yield, and [undefined] for a property
    that is absent.  Only the truthiness of a number matters below. *)
#[local] Unset Elimination Schemes.
Inductive JsValue : Type :=
| JUndefined
| JNull
| JBool (b : bool)
| JNumber (z : Z)
| JString (s : string)
| JArray (items : list JsValue)
| JObject (fields : list (string * JsValue)).
#[local] Set Elimination Schemes.

Definition truthy (v : JsValue) : bool :=
  match v with
  | JUndefined | JNull => false
  | JBool b => b
  | JNumber z => negb (z =? 0)%Z
  | JString s => negb (String.eqb s "")
  | JArray _ | JObject _ => true
  end.

Fixpoint assoc (p : string) (fields : list (string * JsValue)) : JsValue :=
  match fields with
  | [] => JUndefined
  | (k, v) :: fields' => if String.eqb k p then v else assoc p fields'
  end.

(** Property access [config.p] for the property names the poller reads,
    none of which is built into a primitive or an array. *)
Definition get (config : JsValue) (p : string) : outcome JsValue :=
  match config with
  | JUndefined | JNull =>
      Throw (TypeError ("Cannot read property '" +:+ p +:+ "' of null"))
  | JObject fields => Return (assoc p fields)
  | _ => Return JUndefined
  end.

Inductive FetchResult : Type :=
| FetchRejected (err : JsError)
| JsonRejected (err : JsError)
| JsonBody (config : JsValue).

Record FeedMetadata := {
  firstMessage : PublicKey;
  loginMethod : JsValue;
  feedProgramId : PublicKey;
  url : JsValue;
}.

Section Poller.
(** [fetch url n] is what the [n]-th request to [url] meets;
    [PublicKey_of_value] is [new PublicKey(value)] on a JSON value
    (base-58 or hexadecimal text), which raises on invalid input. *)
Variable fetch : string -> nat -> FetchResult.
Variable PublicKey_of_value : JsValue -> outcome PublicKey.

(** The body of the [try] block of the [n]-th iteration: [Throw] is an
    exception that reaches the [catch], [Return None] falls through to the
    "waiting" log, [Return (Some metadata)] is the [return] statement. *)
Definition try_fetch (configUrl : string) (n : nat)
  : outcome (option FeedMetadata) :=
  match fetch configUrl n with
  | FetchRejected err => Throw err
  | JsonRejected err => Throw err
  | JsonBody config =>
      match get config "loading" with
      | Throw err => Throw err
      | Return loading =>
          if negb (truthy loading) then
            match get config "firstMessage" with
            | Throw err => Throw err
            | Return v1 =>
            match PublicKey_of_value v1 with
            | Throw err => Throw err
            | Return first =>
            match get config "loginMethod" with
            | Throw err => Throw err
            | Return method =>
            match get config "programId" with
            | Throw err => Throw err
            | Return v2 =>
            match PublicKey_of_value v2 with
            | Throw err => Throw err
            | Return program =>
            match get config "url" with
            | Throw err => Throw err
            | Return u =>
                Return (Some {| firstMessage := first;
                                loginMethod := method;
                                feedProgramId := program;
                                url := u |})
            end end end end end end
          else Return None
      end
  end.

(** [n] counts the requests made before the call. *)
Fixpoint getFirstMessage (fuel : nat) (configUrl : string) (n : nat)
    (t : Trace) : option (nat * Trace * outcome FeedMetadata) :=
  match fuel with
  | O => None
  | S fuel' =>
      let t := t ++ [EvFetch configUrl] in
      match try_fetch configUrl n with
      | Return (Some metadata) => Some (S n, t, Return metadata)
      | Return None =>
          getFirstMessage fuel' configUrl (S n)
            (t ++ [EvWaiting; EvSleep 1000])
      | Throw err =>
          getFirstMessage fuel' configUrl (S n)
            (t ++ [EvConsoleError err; EvSleep 1000])
      end
  end.
End Poller.

(** ** The earlier revision of the file *)

Module Legacy.

(** Two pointers and the text: there is no [creator] field. *)
Definition messageAccountDataLayout_decode (b : Buffer)
  : MessageAccountData :=
  {| raw_nextMessage := blob_decode 32 b 0;
     raw_from := blob_decode 32 b 32;
     raw_creator := [];
     raw_text := cstr_decode b 64 |}.

Definition messageAccountDataLayout_span (text : string) : nat :=
  (32 + 32 + length (cstr_encode text))%nat.

Definition readMessage (connection : Connection) (message : PublicKey)
  : M MessageData :=
  accountInfo <- getAccountInfo connection message ;;
  match accountInfo with
  | None => throw (TypeError "Cannot read property 'data' of null")
  | Some info =>
      let messageAccountData :=
        messageAccountDataLayout_decode (data info) in
      next <- lift (new_PublicKey (raw_nextMessage messageAccountData)) ;;
      author <- lift (new_PublicKey (raw_from messageAccountData)) ;;
      ret {| nextMessage := next;
             from := author;
             programId := owner info;
             text := raw_text messageAccountData |}
  end.

Section Synchronizer.
Variable publicKeyToName : PublicKey -> string.

(** No test of [messages.length]: on an empty array
    [messages[messages.length - 1]] is [undefined] and reading its
    [publicKey] raises. *)
Fixpoint refreshMessageFeed (fuel : nat) (connection : Connection)
    (messages : list Message) (onNewMessage : option Callback)
    (message : option PublicKey) (t : Trace)
  : option (Trace * list Message * outcome unit) :=
  match fuel with
  | O => None
  | S fuel' =>
      let continue (message : PublicKey) (t : Trace) :=
        if equals message emptyMessage then Some (t, messages, Return tt)
        else
          match readMessage connection message
                  (t ++ [EvLoadingMessage message]) with
          | (t, Throw e) => Some (t, messages, Throw e)
          | (t, Return messageData) =>
              refreshMessageFeed fuel' connection
                (messages ++ [newMessage publicKeyToName message messageData])
                onNewMessage (Some (nextMessage messageData))
                (notify onNewMessage t)
          end in
      match message with
      | Some message => continue message t
      | None =>
          match last messages with
          | None =>
              Some (t, messages,
                    Throw (TypeError
                      "Cannot read property 'publicKey' of undefined"))
          | Some lastMessage =>
              match readMessage connection (m_publicKey lastMessage) t with
              | (t, Throw e) => Some (t, messages, Throw e)
              | (t, Return lastMessageData) =>
                  continue (nextMessage lastMessageData) t
              end
          end
      end
  end.
End Synchronizer.

Definition postMessageWithProgramId_compose
    (payerAccount : Account) (program : PublicKey)
    (messageAccount : Account) (text : string)
    (previousMessagePublicKey : option PublicKey)
  : Transaction * list Account :=
  let transaction := new_Transaction in
  let textBuffer := String.list_byte_of_string text in
  let transaction :=
    add transaction
      (SystemProgram_createAccount (publicKey payerAccount)
         (publicKey messageAccount) 1
         (32 + 32 + length textBuffer)%nat program) in
  let keys :=
    [ {| pubkey := publicKey payerAccount; isSigner := true |};
      {| pubkey := publicKey messageAccount; isSigner := true |} ] in
  let keys :=
    match previousMessagePublicKey with
    | Some previous =>
        keys ++ [ {| pubkey := previous; isSigner := false |} ]
    | None => keys
    end in
  let transaction :=
    add transaction (Instruction keys program (Some textBuffer)) in
  (transaction, [payerAccount; messageAccount]).

(** The poller of the earlier revision: only [firstMessage] goes through
    [new PublicKey]; [programId] is handed back as it came. *)
Record FeedMetadata := {
  url : JsValue;
  firstMessage : PublicKey;
  programId : JsValue;
}.

Section Poller.
Variable fetch : string -> nat -> FetchResult.
Variable PublicKey_of_value : JsValue -> outcome PublicKey.

Definition try_fetch (configUrl : string) (n : nat)
  : outcome (option FeedMetadata) :=
  match fetch configUrl n with
  | FetchRejected err => Throw err
  | JsonRejected err => Throw err
  | JsonBody config =>
      match get config "loading" with
      | Throw err => Throw err
      | Return loading =>
          if negb (truthy loading) then
            match get config "url" with
            | Throw err => Throw err
            | Return u =>
            match get config "firstMessage" with
            | Throw err => Throw err
            | Return v1 =>
            match PublicKey_of_value v1 with
            | Throw err => Throw err
            | Return first =>
            match get config "programId" with
            | Throw err => Throw err
            | Return program =>
                Return (Some {| url := u;
                                firstMessage := first;
                                programId := program |})
            end end end end
          else Return None
      end
  end.

Fixpoint getFirstMessage (fuel : nat) (configUrl : string) (n : nat)
    (t : Trace) : option (nat * Trace * outcome FeedMetadata) :=
  match fuel with
  | O => None
  | S fuel' =>
      let t := t ++ [EvFetch configUrl] in
      match try_fetch configUrl n with
      | Return (Some metadata) => Some (S n, t, Return metadata)
      | Return None =>
          getFirstMessage fuel' configUrl (S n)
            (t ++ [EvWaiting; EvSleep 1000])
      | Throw err =>
          getFirstMessage fuel' configUrl (S n)
            (t ++ [EvConsoleError err; EvSleep 1000])
      end
  end.
End Poller.

End Legacy.

(** The byte size a transaction asks for in its first instruction, the
    allocation of the message account. *)
Definition allocated_space (transaction : Transaction) : option nat :=
  match instructions transaction with
  | SystemProgram_createAccount _ _ _ space _ :: _ => Some space
  | _ => None
  end.

(** ** Accounts as they sit on the ledger *)

(** [PublicKey.toBuffer()]: 32 bytes, big-endian. *)
Fixpoint N_to_bytes (len : nat) (n : N) : Buffer :=
  match len with
  | O => []
  | S len' =>
      N_to_bytes len' (n / 256)
        ++ [default x00 (Byte.of_N (n mod 256))]
  end.

Definition toBuffer (key : PublicKey) : Buffer := N_to_bytes 32 key.

(** A message account filled to exactly the size the composer allocates:
    the three pointers, then the bytes of the text. *)
Definition message_account (program next author maker : PublicKey)
    (text : string) : AccountInfo :=
  {| data := toBuffer next ++ toBuffer author ++ toBuffer maker
             ++ String.list_byte_of_string text;
     owner := program |}.

Definition user_account (program : PublicKey) (flag : byte)
    (maker : PublicKey) : AccountInfo :=
  {| data := flag :: toBuffer maker; owner := program |}.

(** A feed of three messages [1 -> 2 -> 3 -> 0] by the user [9], under the
    program [7]. *)
Definition three_messages : gmap N AccountInfo :=
  {[ 1 := message_account 7 2 9 9 "first";
     2 := message_account 7 3 9 9 "second";
     3 := message_account 7 0 9 9 "third" ]}.

Definition three_chain : list (PublicKey * MessageData) :=
  [ (1, {| nextMessage := 2; from := 9; programId := 7; text := "first" |});
    (2, {| nextMessage := 3; from := 9; programId := 7; text := "second" |});
    (3, {| nextMessage := 0; from := 9; programId := 7; text := "third" |}) ].

(** A message account that names itself as its successor. *)
Definition self_loop : gmap N AccountInfo :=
  {[ 1 := message_account 7 1 9 9 "again" ]}.

(** User accounts: [9] is banned, [8] is not, [6] holds a single byte, [5]
    holds no data; nothing sits at [4]. *)
Definition some_users : gmap N AccountInfo :=
  {[ 9 := user_account 7 x01 0;
     8 := user_account 7 x00 0;
     6 := {| data := [x01]; owner := 7 |};
     5 := {| data := []; owner := 7 |} ]}.

Definition name_of (key : PublicKey) : string :=
  if key =? 9 then "alice" else "anonymous".

(** ** Vocabulary of the statements *)

(** What a read of [message] yields, apart from the trace. *)
Definition read_result (connection : gmap N AccountInfo)
    (message : PublicKey) : outcome MessageData :=
  (readMessage connection message []).2.

(** The feed as the reader sees it on the ledger: the accounts met from a
    pointer on, each with what [readMessage] decodes from it, up to the
    sentinel.  Every link is a key different from the sentinel that names
    a readable account. *)
Inductive chain (connection : gmap N AccountInfo)
  : PublicKey -> list (PublicKey * MessageData) -> Prop :=
| chain_end : chain connection emptyMessage []
| chain_link (message : PublicKey) (messageData : MessageData)
    (rest : list (PublicKey * MessageData)) :
    message <> emptyMessage ->
    read_result connection message = Return messageData ->
    chain connection (nextMessage messageData) rest ->
    chain connection message ((message, messageData) :: rest).

(** One hop of the traversal: [message] is not the sentinel, its account
    reads back, and names [successor] as the next message. *)
Definition link (connection : gmap N AccountInfo)
    (message successor : PublicKey) : Prop :=
  message <> emptyMessage
  /\ exists messageData,
       read_result connection message = Return messageData
       /\ nextMessage messageData = successor.

(** A pointer repeats: some hops from [message] lead back to it. *)
Definition on_cycle (connection : gmap N AccountInfo) (message : PublicKey)
  : Prop :=
  tc (link connection) message message.

(** The entries of the view for a stretch of the feed. *)
Definition entries (publicKeyToName : PublicKey -> string)
    (l : list (PublicKey * MessageData)) : list Message :=
  map (fun '(message, messageData) =>
         newMessage publicKeyToName message messageData) l.

(** The effects of loading one message: the log line, the read, and the
    call of the observer when there is one. *)
Definition visit (onNewMessage : option Callback) (message : PublicKey)
  : Trace :=
  notify onNewMessage [EvLoadingMessage message; EvGetAccountInfo message].

Definition visits (onNewMessage : option Callback)
    (l : list (PublicKey * MessageData)) : Trace :=
  flat_map (fun '(message, _) => visit onNewMessage message) l.

(** The view has been followed to the tail: its last entry, if any, reads
    back with the sentinel as successor. *)
Definition at_tail (connection : gmap N AccountInfo)
    (messages : list Message) : Prop :=
  match last messages with
  | None => True
  | Some lastMessage =>
      exists lastMessageData,
        read_result connection (m_publicKey lastMessage)
          = Return lastMessageData
        /\ nextMessage lastMessageData = emptyMessage
  end.

(** The allocation is large enough for what the message layout encodes. *)
Definition space_holds_layout (text : string) (transaction : Transaction)
  : Prop :=
  exists space,
    allocated_space transaction = Some space
    /\ (messageAccountDataLayout_span text <= space)%nat.

(** The effects of one iteration of the poller, given what its [try] block
    came to. *)
Definition attempt_events (configUrl : string)
    (o : outcome (option FeedMetadata)) : Trace :=
  EvFetch configUrl
  :: match o with
     | Return (Some _) => []
     | Return None => [EvWaiting; EvSleep 1000]
     | Throw err => [EvConsoleError err; EvSleep 1000]
     end.

Definition ready (o : outcome (option FeedMetadata)) : bool :=
  match o with Return (Some _) => true | _ => false end.

(** The effects of the iterations [n], [n + 1], ... ([k] of them). *)
Definition poll_trace (fetch : string -> nat -> FetchResult)
    (PublicKey_of_value : JsValue -> outcome PublicKey)
    (configUrl : string) (n k : nat) : Trace :=
  flat_map
    (fun i => attempt_events configUrl
                (try_fetch fetch PublicKey_of_value configUrl i))
    (seq n k).

(** The metadata [getFirstMessage] builds from a configuration. *)
Definition metadata_of (PublicKey_of_value : JsValue -> outcome PublicKey)
    (config : JsValue) (metadata : FeedMetadata) : Prop :=
  (exists v, get config "firstMessage" = Return v
             /\ PublicKey_of_value v = Return (firstMessage metadata))
  /\ get config "loginMethod" = Return (loginMethod metadata)
  /\ (exists v, get config "programId" = Return v
                /\ PublicKey_of_value v = Return (feedProgramId metadata))
  /\ get config "url" = Return (url metadata).

(** An endpoint that is loading, then unreachable, then loading, then
    ready. *)
Definition loading_config : JsValue := JObject [("loading", JBool true)].

Definition ready_config : JsValue :=
  JObject [ ("loading", JBool false);
            ("firstMessage", JString "0x01");
            ("programId", JString "0x07");
            ("loginMethod", JString "local");
            ("url", JString "http://localhost:8899") ].

Definition scripted (configUrl : string) (n : nat) : FetchResult :=
  match n with
  | 0%nat => JsonBody loading_config
  | 1%nat => FetchRejected (Error "connect ECONNREFUSED")
  | 2%nat => JsonBody loading_config
  | _ => JsonBody ready_config
  end.

(** Responses that say nothing of [loading], or give it as [0]. *)
Definition config_without_loading : JsValue :=
  JObject [ ("firstMessage", JString "0x01");
            ("programId", JString "0x07") ].

Definition config_loading_zero : JsValue :=
  JObject [ ("loading", JNumber 0);
            ("firstMessage", JString "0x01");
            ("programId", JString "0x07") ].

(** Keys written in hexadecimal; anything else is refused. *)
Definition key_of_hex (value : JsValue) : outcome PublicKey :=
  match value with
  | JString s =>
      if String.prefix "0x" s then Return (HexString.to_N s)
      else Throw (Error "Invalid public key input")
  | _ => Throw (Error "Invalid public key input")
  end.

(** ** Further functions of the client: [createUser], [postMessage] *)

(** The body of [createUser] between the funding of the payer and the
    submission; [userAccount] is what [new Account()] yields. *)
Definition createUser_compose
    (payerAccount userAccount firstMessageAccount : Account)
    (program : PublicKey) : Transaction * list Account :=
  let transaction := new_Transaction in
  let transaction :=
    add transaction
      (SystemProgram_createAccount (publicKey payerAccount)
         (publicKey userAccount) 1 (1 + 32)%nat program) in
  let keys :=
    [ {| pubkey := publicKey userAccount; isSigner := true |};
      {| pubkey := publicKey firstMessageAccount; isSigner := true |} ] in
  let transaction := add transaction (Instruction keys program None) in
  (transaction, [payerAccount; userAccount; firstMessageAccount]).

Section Client.
(** The collaborators of [Section Composer]; here [new_Account n] is what
    the [n]-th call of [new Account()] yields. *)
Variable newSystemAccountWithAirdrop : Z -> outcome Account.
Variable new_Account : nat -> Account.
Variable sendAndConfirmTransaction :
  Transaction -> list Account -> outcome TransactionSignature.

Definition createUser (program : PublicKey) (firstMessageAccount : Account)
  : outcome Account :=
  let fee := 100%Z in
  match newSystemAccountWithAirdrop (10 + fee)%Z with
  | Throw e => Throw e
  | Return payerAccount =>
      let userAccount := new_Account 0 in
      let '(transaction, signers) :=
        createUser_compose payerAccount userAccount firstMessageAccount
          program in
      match sendAndConfirmTransaction transaction signers with
      | Throw e => Throw e
      | Return _ => Return userAccount
      end
  end.

(** [postMessage]: the program is the owner of the previous message's
    account; the message account is fresh. *)
Definition postMessage (connection : Connection) (userAccount : Account)
    (text : string) (previousMessage : PublicKey)
    (userToBan : option PublicKey) : M TransactionSignature :=
  messageData <- readMessage connection previousMessage ;;
  let messageAccount := new_Account 0 in
  lift (postMessageWithProgramId newSystemAccountWithAirdrop (new_Account 1)
          sendAndConfirmTransaction (programId messageData)
          (Some userAccount) messageAccount text (Some previousMessage)
          userToBan).
End Client.

(** ** The configuration endpoint of the server ([main.js]) *)

(** What [checkMessageFeed] yields once the feed is loaded. *)
Record FeedMeta := { meta_firstMessage : Account; meta_programId : PublicKey }.

Section ConfigEndpoint.
(** [toString] is [PublicKey.toString()]; the two addresses come from
    [urls.js], the login method from the environment. *)
Variable toString : PublicKey -> string.
Variables serverLoginMethod serverUrl walletUrl : string.

(** The object the handler of [/config.json] serializes; [meta] is [None]
    while the feed is loading. *)
Definition config_response (meta : option FeedMeta) : JsValue :=
  JObject
    [ ("loading", JBool (negb (bool_decide (is_Some meta))));
      ("firstMessage",
       match meta with
       | Some m => JString (toString (publicKey (meta_firstMessage m)))
       | None => JNull
       end);
      ("programId",
       match meta with
       | Some m => JString (toString (meta_programId m))
       | None => JNull
       end);
      ("loginMethod", JString serverLoginMethod);
      ("url", JString serverUrl);
      ("walletUrl", JString walletUrl) ].
End ConfigEndpoint.

(** ** More vocabulary *)

(** The accounts an instruction has sign: the one that pays for an
    allocation, and the keys flagged [isSigner]. *)
Definition signer_keys (i : TransactionInstruction) : list PublicKey :=
  match i with
  | SystemProgram_createAccount fromPubkey _ _ _ _ => [fromPubkey]
  | Instruction keys _ _ => map pubkey (List.filter isSigner keys)
  end.

(** The program an instruction names: the owner given to a new account,
    the program an instruction is addressed to. *)
Definition instruction_program (i : TransactionInstruction) : PublicKey :=
  match i with
  | SystemProgram_createAccount _ _ _ _ program => program
  | Instruction _ program _ => program
  end.

Definition instruction_lamports (i : TransactionInstruction) : option Z :=
  match i with
  | SystemProgram_createAccount _ _ lamports _ _ => Some lamports
  | Instruction _ _ _ => None
  end.

(** Hops from a message through readable accounts to a pointer, which
    need not be the sentinel. *)
Inductive path (connection : gmap N AccountInfo)
  : PublicKey -> list (PublicKey * MessageData) -> PublicKey -> Prop :=
| path_here (message : PublicKey) : path connection message [] message
| path_hop (message : PublicKey) (messageData : MessageData)
    (rest : list (PublicKey * MessageData)) (stop : PublicKey) :
    message <> emptyMessage ->
    read_result connection message = Return messageData ->
    path connection (nextMessage messageData) rest stop ->
    path connection message ((message, messageData) :: rest) stop.

Definition is_call (e : event) : bool :=
  match e with EvCall _ => true | _ => false end.
Definition is_read (e : event) : bool :=
  match e with EvGetAccountInfo _ => true | _ => false end.
Definition is_fetch (e : event) : bool :=
  match e with EvFetch _ => true | _ => false end.
Definition is_sleep (e : event) : bool :=
  match e with EvSleep _ => true | _ => false end.

Definition count (p : event -> bool) (t : Trace) : nat :=
  length (List.filter p t).

(** A feed whose first message points to an account that does not exist. *)
Definition dangling : gmap N AccountInfo :=
  {[ 1 := message_account 7 2 9 9 "first" ]}.

(** An account whose text holds a NUL, and one in the layout with the
    terminator. *)
Definition with_nul : gmap N AccountInfo :=
  {[ 1 := {| data := toBuffer 0 ++ toBuffer 9 ++ toBuffer 9
                       ++ String.list_byte_of_string "ab"
                       ++ [x00] ++ String.list_byte_of_string "cd";
             owner := 7 |} ]}.

(** Keys printed in hexadecimal. *)
Definition hex_of_key (key : PublicKey) : string := HexString.of_N key.

(** An entry of the view that comes from the ledger: its key is not the
    sentinel and names an account, whose bytes give the author and the
    text; the name is the one [publicKeyToName] gives the author. *)
Definition genuine (publicKeyToName : PublicKey -> string)
    (connection : gmap N AccountInfo) (m : Message) : Prop :=
  m_publicKey m <> emptyMessage
  /\ m_name m = publicKeyToName (m_from m)
  /\ exists info,
       connection !! m_publicKey m = Some info
       /\ m_from m = BN_of_bytes (blob_decode 32 (data info) 32)
       /\ m_text m = cstr_decode (data info) 96.

(** * Properties *)

(** ** Codec lemmas *)

Lemma length_list_byte_of_string (s : string) :
  length (String.list_byte_of_string s) = String.length s.
Proof.
  unfold String.list_byte_of_string.
  rewrite length_map.
  induction s as [|c s IH]; simpl; [reflexivity | now rewrite IH].
Qed.

Lemma length_cstr_encode (s : string) :
  length (cstr_encode s) = S (String.length s).
Proof.
  unfold cstr_encode.
  rewrite length_app, length_list_byte_of_string; simpl; lia.
Qed.

Lemma in_range_spec (lo hi x : N) :
  in_range lo hi x = true <-> lo <= x <= hi.
Proof.
  unfold in_range. rewrite andb_true_iff, !N.leb_le. tauto.
Qed.

Lemma div_pack (d q r : N) : r < d -> (q * d + r) / d = q.
Proof. intros Hr. symmetry. apply N.div_unique with (r := r); lia. Qed.

Lemma mod_pack (d q r : N) : r < d -> (q * d + r) mod d = r.
Proof. intros Hr. symmetry. apply N.mod_unique with (q := q); lia. Qed.

Lemma utf8_encode_1 (b0 : N) : b0 <= 0x7F -> utf8_encode b0 = [b0].
Proof.
  intros H. unfold utf8_encode.
  destruct (N.leb_spec b0 0x7F); [reflexivity | lia].
Qed.

Lemma utf8_encode_2 (b0 b1 : N) :
  0xC2 <= b0 <= 0xDF -> 0x80 <= b1 <= 0xBF ->
  utf8_encode ((b0 - 0xC0) * 64 + (b1 - 0x80)) = [b0; b1].
Proof.
  intros H0 H1.
  remember (b0 - 0xC0) as q0 eqn:Eq0. remember (b1 - 0x80) as q1 eqn:Eq1.
  assert (2 <= q0 <= 31 /\ q1 <= 63) as [Hq0 Hq1] by lia.
  unfold utf8_encode.
  destruct (N.leb_spec (q0 * 64 + q1) 0x7F); [lia|].
  destruct (N.leb_spec (q0 * 64 + q1) 0x7FF); [|lia].
  rewrite div_pack, mod_pack by lia.
  f_equal; [|f_equal]; lia.
Qed.

Lemma utf8_encode_3 (b0 b1 b2 : N) :
  0xE0 <= b0 <= 0xEF ->
  (if b0 =? 0xE0 then 0xA0 else 0x80) <= b1 <= 0xBF ->
  0x80 <= b2 <= 0xBF ->
  utf8_encode ((b0 - 0xE0) * 4096 + (b1 - 0x80) * 64 + (b2 - 0x80))
  = [b0; b1; b2].
Proof.
  intros H0 H1 H2.
  assert (0x80 <= b1 /\ (b0 = 0xE0 -> 0xA0 <= b1)) as [H1' HE0]
    by (destruct (N.eqb_spec b0 0xE0); split; lia).
  remember (b0 - 0xE0) as q0 eqn:Eq0. remember (b1 - 0x80) as q1 eqn:Eq1.
  remember (b2 - 0x80) as q2 eqn:Eq2.
  assert (q0 <= 15 /\ q1 <= 63 /\ q2 <= 63 /\ (q0 = 0 -> 32 <= q1))
    as (Hq0 & Hq1 & Hq2 & Hmin) by lia.
  unfold utf8_encode.
  destruct (N.leb_spec (q0 * 4096 + q1 * 64 + q2) 0x7F); [lia|].
  destruct (N.leb_spec (q0 * 4096 + q1 * 64 + q2) 0x7FF); [lia|].
  destruct (N.leb_spec (q0 * 4096 + q1 * 64 + q2) 0xFFFF); [|lia].
  replace (q0 * 4096 + q1 * 64 + q2) with ((q0 * 64 + q1) * 64 + q2) by lia.
  rewrite (div_pack 64 (q0 * 64 + q1) q2), (mod_pack 64 (q0 * 64 + q1) q2),
    (mod_pack 64 q0 q1) by lia.
  replace ((q0 * 64 + q1) * 64 + q2) with (q0 * 4096 + (q1 * 64 + q2)) by lia.
  rewrite (div_pack 4096 q0 (q1 * 64 + q2)) by lia.
  f_equal; [|f_equal; [|f_equal]]; lia.
Qed.

Lemma utf8_encode_4 (b0 b1 b2 b3 : N) :
  0xF0 <= b0 <= 0xF4 ->
  (if b0 =? 0xF0 then 0x90 else 0x80) <= b1 <= 0xBF ->
  0x80 <= b2 <= 0xBF ->
  0x80 <= b3 <= 0xBF ->
  utf8_encode ((b0 - 0xF0) * 262144 + (b1 - 0x80) * 4096
               + (b2 - 0x80) * 64 + (b3 - 0x80))
  = [b0; b1; b2; b3].
Proof.
  intros H0 H1 H2 H3.
  assert (0x80 <= b1 /\ (b0 = 0xF0 -> 0x90 <= b1)) as [H1' HF0]
    by (destruct (N.eqb_spec b0 0xF0); split; lia).
  remember (b0 - 0xF0) as q0 eqn:Eq0. remember (b1 - 0x80) as q1 eqn:Eq1.
  remember (b2 - 0x80) as q2 eqn:Eq2. remember (b3 - 0x80) as q3 eqn:Eq3.
  assert (q0 <= 4 /\ q1 <= 63 /\ q2 <= 63 /\ q3 <= 63
          /\ (q0 = 0 -> 16 <= q1))
    as (Hq0 & Hq1 & Hq2 & Hq3 & Hmin) by lia.
  unfold utf8_encode.
  destruct (N.leb_spec (q0 * 262144 + q1 * 4096 + q2 * 64 + q3) 0x7F); [lia|].
  destruct (N.leb_spec (q0 * 262144 + q1 * 4096 + q2 * 64 + q3) 0x7FF); [lia|].
  destruct (N.leb_spec (q0 * 262144 + q1 * 4096 + q2 * 64 + q3) 0xFFFF); [lia|].
  replace (q0 * 262144 + q1 * 4096 + q2 * 64 + q3)
    with (((q0 * 64 + q1) * 64 + q2) * 64 + q3) by lia.
  rewrite (div_pack 64 ((q0 * 64 + q1) * 64 + q2) q3),
    (mod_pack 64 ((q0 * 64 + q1) * 64 + q2) q3),
    (mod_pack 64 (q0 * 64 + q1) q2) by lia.
  replace (((q0 * 64 + q1) * 64 + q2) * 64 + q3)
    with ((q0 * 64 + q1) * 4096 + (q2 * 64 + q3)) by lia.
  rewrite (div_pack 4096 (q0 * 64 + q1) (q2 * 64 + q3)), (mod_pack 64 q0 q1)
    by lia.
  replace ((q0 * 64 + q1) * 4096 + (q2 * 64 + q3))
    with (q0 * 262144 + (q1 * 4096 + q2 * 64 + q3)) by lia.
  rewrite (div_pack 262144 q0 (q1 * 4096 + q2 * 64 + q3)) by lia.
  f_equal; [|f_equal; [|f_equal; [|f_equal]]]; lia.
Qed.

Lemma utf8_round_trip_bounded (n : nat) :
  forall b, (length b <= n)%nat -> well_formed_utf8 b = true ->
            flat_map utf8_encode (utf8_decode b) = b.
Proof.
  induction n as [|n IH]; intros b Hlen Hwf.
  - destruct b; [reflexivity | simpl in Hlen; lia].
  - destruct b as [|b0 rest]; [reflexivity|].
    cbn [well_formed_utf8 utf8_decode] in *.
    destruct (N.leb_spec b0 0x7F) as [Hascii|_].
    { cbn [flat_map]. rewrite utf8_encode_1 by assumption.
      rewrite IH by (simpl in Hlen; auto with lia). reflexivity. }
    destruct (in_range 0xC2 0xDF b0) eqn:H2.
    { apply in_range_spec in H2.
      destruct rest as [|b1 r1]; [discriminate|].
      apply andb_true_iff in Hwf as [H21 Hwf]. rewrite H21.
      apply in_range_spec in H21.
      cbn [flat_map]. rewrite utf8_encode_2 by assumption.
      rewrite IH by (simpl in Hlen; auto with lia). reflexivity. }
    destruct (in_range 0xE0 0xEF b0) eqn:H3.
    { apply in_range_spec in H3.
      destruct rest as [|b1 [|b2 r2]]; try discriminate.
      apply andb_true_iff in Hwf as [Hwf Hrest].
      apply andb_true_iff in Hwf as [H31 H32].
      rewrite H31, H32.
      apply in_range_spec in H31, H32.
      cbn [flat_map]. rewrite utf8_encode_3; try assumption.
      - rewrite IH by (simpl in Hlen; auto with lia). reflexivity.
      - destruct (b0 =? 0xED); lia. }
    destruct (in_range 0xF0 0xF4 b0) eqn:H4; [|discriminate].
    apply in_range_spec in H4.
    destruct rest as [|b1 [|b2 [|b3 r3]]]; try discriminate.
    apply andb_true_iff in Hwf as [Hwf Hrest].
    apply andb_true_iff in Hwf as [Hwf H43].
    apply andb_true_iff in Hwf as [H41 H42].
    rewrite H41, H42, H43.
    apply in_range_spec in H41, H42, H43.
    cbn [flat_map]. rewrite utf8_encode_4; try assumption.
    + rewrite IH by (simpl in Hlen; auto with lia). reflexivity.
    + destruct (b0 =? 0xF4); lia.
Qed.

Lemma utf8_round_trip (b : list N) :
  well_formed_utf8 b = true -> flat_map utf8_encode (utf8_decode b) = b.
Proof. now apply (utf8_round_trip_bounded (length b)). Qed.

(** On well-formed UTF-8 [toString] changes nothing. *)
Lemma toString_utf8_well_formed (b : list byte) :
  well_formed_utf8 (map Byte.to_N b) = true ->
  toString_utf8 b = String.string_of_list_byte b.
Proof.
  intros Hwf. unfold toString_utf8. rewrite (utf8_round_trip _ Hwf).
  f_equal. rewrite map_map.
  rewrite <- (map_id b) at 2. apply map_ext.
  intros x. unfold byte_of_N. now rewrite Byte.of_to_N.
Qed.

(** A byte that cannot start a sequence reads as U+FFFD; the euro sign
    is kept. *)
Example toString_utf8_replaces_ill_formed :
  String.list_byte_of_string (toString_utf8 [x61; xff; x62])
  = [x61; xef; xbf; xbd; x62]
  /\ String.list_byte_of_string (toString_utf8 [xe2; x82; xac])
     = [xe2; x82; xac].
Proof. split; reflexivity. Qed.

Lemma BN_of_bytes_snoc (b : list byte) (x : byte) :
  BN_of_bytes (b ++ [x]) = BN_of_bytes b * 256 + Byte.to_N x.
Proof. unfold BN_of_bytes. now rewrite fold_left_app. Qed.

Lemma to_N_lt (x : byte) : Byte.to_N x < 256.
Proof. pose proof (Byte.to_N_bounded x). lia. Qed.

Lemma BN_of_bytes_lt (b : list byte) :
  BN_of_bytes b < 256 ^ N.of_nat (length b).
Proof.
  induction b as [|x b IH] using rev_ind; [reflexivity|].
  rewrite BN_of_bytes_snoc, length_app, Nat2N.inj_add, N.pow_add_r.
  simpl length. change (256 ^ N.of_nat 1) with 256.
  pose proof (to_N_lt x). nia.
Qed.

Lemma size_le_of_lt (n m : N) : n < 2 ^ m -> N.size n <= m.
Proof.
  intros Hlt. apply N.nlt_ge. intros Hgt.
  pose proof (N.size_le n) as Hsize.
  assert (2 ^ N.succ m <= 2 ^ N.size n)
    by (apply N.pow_le_mono_r; lia).
  rewrite N.pow_succ_r' in *. lia.
Qed.

(** The width test of [new PublicKey] passes on every number below
    [2 ^ 256], hence on every buffer of 32 bytes or fewer. *)
Lemma byteLength_le (n : N) : n < 2 ^ 256 -> byteLength n <= 32.
Proof.
  intros Hlt. unfold byteLength.
  pose proof (size_le_of_lt _ _ Hlt).
  change 32 with ((256 + 7) / 8).
  apply N.Div0.div_le_mono. lia.
Qed.

Lemma new_PublicKey_blob (b : list byte) :
  (length b <= 32)%nat -> new_PublicKey b = Return (BN_of_bytes b).
Proof.
  intros Hlen. unfold new_PublicKey.
  assert (Hlt : BN_of_bytes b < 2 ^ 256).
  { eapply N.lt_le_trans; [apply BN_of_bytes_lt|].
    change (2 ^ 256) with (256 ^ N.of_nat 32).
    apply N.pow_le_mono_r; lia. }
  apply byteLength_le in Hlt.
  destruct (N.ltb_spec 32 (byteLength (BN_of_bytes b))); [lia | reflexivity].
Qed.

Lemma length_blob_decode (span : nat) (b : list byte) (offset : nat) :
  (length (blob_decode span b offset) <= span)%nat.
Proof. unfold blob_decode. rewrite length_take. lia. Qed.

(** A message account that exists always decodes: the blobs are slices,
    and the text runs to the first NUL or to the end of the data. *)
Lemma read_result_Some (connection : gmap N AccountInfo) (message : PublicKey)
    (info : AccountInfo) :
  connection !! message = Some info ->
  read_result connection message
  = Return {| nextMessage := BN_of_bytes (blob_decode 32 (data info) 0);
              from := BN_of_bytes (blob_decode 32 (data info) 32);
              programId := owner info;
              text := cstr_decode (data info) 96 |}.
Proof.
  intros Hinfo.
  unfold read_result, readMessage, bind, getAccountInfo, emit, ret, lift; simpl.
  rewrite Hinfo.
  now rewrite !new_PublicKey_blob by apply length_blob_decode.
Qed.

Lemma read_result_None (connection : gmap N AccountInfo) (message : PublicKey) :
  connection !! message = None ->
  read_result connection message
  = Throw (TypeError "Cannot read property 'data' of null").
Proof.
  intros Hinfo.
  unfold read_result, readMessage, bind, getAccountInfo, emit, throw; simpl.
  now rewrite Hinfo.
Qed.

Lemma length_N_to_bytes (len : nat) (n : N) : length (N_to_bytes len n) = len.
Proof.
  revert n. induction len as [|len IH]; intros n; simpl; [reflexivity|].
  rewrite length_app, IH. simpl. lia.
Qed.

Lemma BN_of_N_to_bytes (len : nat) (n : N) :
  BN_of_bytes (N_to_bytes len n) = n mod 256 ^ N.of_nat len.
Proof.
  revert n. induction len as [|len IH]; intros n.
  - simpl. now rewrite N.mod_1_r.
  - cbn [N_to_bytes]. rewrite BN_of_bytes_snoc, IH.
    rewrite Nat2N.inj_succ, N.pow_succ_r', N.Div0.mod_mul_r.
    assert (Hbyte : Byte.to_N (default x00 (Byte.of_N (n mod 256)))
                    = n mod 256).
    { destruct (Byte.of_N (n mod 256)) as [y|] eqn:Hy.
      - now apply Byte.to_of_N.
      - apply Byte.of_N_None_iff in Hy.
        pose proof (N.mod_upper_bound n 256). lia. }
    rewrite Hbyte. lia.
Qed.

Lemma strlen_no_nul (b : list byte) :
  Forall (fun x => is_nul x = false) b -> strlen b = length b.
Proof. induction 1 as [|x b Hx _ IH]; simpl; [reflexivity | now rewrite Hx, IH]. Qed.

(** Round trip through an account of exactly the allocated size: pointers
    below [2 ^ 256] and a text of well-formed UTF-8 without NUL are read
    back as they are, although no terminator follows the text. *)
Lemma read_message_account (connection : gmap N AccountInfo)
    (message program next author maker : PublicKey) (text : string) :
  connection !! message
    = Some (message_account program next author maker text) ->
  next < 2 ^ 256 -> author < 2 ^ 256 ->
  Forall (fun x => is_nul x = false) (String.list_byte_of_string text) ->
  valid_text text = true ->
  length (data (message_account program next author maker text))
    = (32 + 32 + 32 + String.length text)%nat
  /\ read_result connection message
     = Return {| nextMessage := next; from := author;
                 programId := program; text := text |}.
Proof.
  intros Hinfo Hnext Hauthor Hnul Hvalid. split.
  - unfold message_account, toBuffer; cbn [data].
    rewrite !length_app, length_list_byte_of_string, !length_N_to_bytes. lia.
  - rewrite (read_result_Some _ _ _ Hinfo).
    unfold message_account; cbn [data owner].
    unfold blob_decode, cstr_decode, cstr_getSpan, toBuffer.
    rewrite drop_0.
    rewrite take_app_length' by now rewrite length_N_to_bytes.
    rewrite (drop_app_length' _ _ 32) by now rewrite length_N_to_bytes.
    rewrite take_app_length' by now rewrite length_N_to_bytes.
    rewrite !app_assoc.
    rewrite (drop_app_length' _ _ 96)
      by (rewrite !length_app, !length_N_to_bytes; reflexivity).
    rewrite strlen_no_nul by assumption.
    rewrite Nat.add_comm, Nat.add_sub, firstn_all.
    rewrite (toString_utf8_well_formed _ Hvalid).
    rewrite String.string_of_list_byte_of_string.
    rewrite !BN_of_N_to_bytes.
    change (256 ^ N.of_nat 32) with (2 ^ 256).
    now rewrite !N.mod_small by assumption.
Qed.

(** ** Transaction composer *)

Section ComposerFacts.
Variables (payerAccount fresh : Account) (program : PublicKey).
Variable messageAccount : Account.
Variable text : string.

Let compose := postMessageWithProgramId_compose payerAccount fresh program.
Let textBuffer := String.list_byte_of_string text.
Let allocate_message :=
  SystemProgram_createAccount (publicKey payerAccount)
    (publicKey messageAccount) 1 (32 + 32 + 32 + length textBuffer)%nat
    program.
Let signer (a : Account) := {| pubkey := publicKey a; isSigner := true |}.
Let reference (k : PublicKey) := {| pubkey := k; isSigner := false |}.

Lemma compose_existing_user (userAccount : Account)
    (previous target : option PublicKey) :
  compose (Some userAccount) messageAccount text previous target =
  ({| instructions :=
        [ allocate_message;
          Instruction
            ([signer userAccount; signer messageAccount]
               ++ match previous with
                  | Some p =>
                      reference p
                      :: match target with
                         | Some b => [reference b]
                         | None => []
                         end
                  | None => []
                  end)
            program (Some textBuffer) ] |},
   [payerAccount; userAccount; messageAccount]).
Proof. destruct previous, target; reflexivity. Qed.

Lemma compose_new_user (previous target : option PublicKey) :
  compose None messageAccount text previous target =
  ({| instructions :=
        [ allocate_message;
          SystemProgram_createAccount (publicKey payerAccount)
            (publicKey fresh) 1 33%nat program;
          Instruction [signer fresh; signer messageAccount] program None;
          Instruction
            ([signer fresh; signer messageAccount]
               ++ match previous with
                  | Some p =>
                      reference p
                      :: match target with
                         | Some b => [reference b]
                         | None => []
                         end
                  | None => []
                  end)
            program (Some textBuffer) ] |},
   [payerAccount; fresh; messageAccount]).
Proof. destruct previous, target; reflexivity. Qed.

Let references (previous target : option PublicKey) : list AccountMeta :=
  match previous with
  | Some p =>
      reference p
      :: match target with
         | Some b => [reference b]
         | None => []
         end
  | None => []
  end.

Lemma post_keys_compose (userAccount : option Account)
    (previous target : option PublicKey) :
  post_keys (compose userAccount messageAccount text previous target).1
  = [signer (default fresh userAccount); signer messageAccount]
      ++ references previous target.
Proof.
  destruct userAccount;
    rewrite ?compose_existing_user, ?compose_new_user; reflexivity.
Qed.

Lemma compose_without_previous (userAccount : option Account)
    (target : option PublicKey) :
  compose userAccount messageAccount text None target
  = compose userAccount messageAccount text None None.
Proof.
  destruct userAccount;
    rewrite ?compose_existing_user, ?compose_new_user; reflexivity.
Qed.

(** C1.  A subsequent message of an existing user is composed as two
    instructions, the allocation of the message account and the post;
    with a ban target there are still two, and the keys of the post are
    those of the composition without ban followed by the target as one
    more account that does not sign.  For a brand-new user ([userAccount]
    is [null]) three instructions come first: the allocation of the
    message account, the allocation of the user account and the
    initialization of the user; the post instruction follows them, which
    makes four entries in the transaction. *)
Theorem instruction_shape (userAccount : Account) (previous target : PublicKey) :
  let no_ban :=
    compose (Some userAccount) messageAccount text (Some previous) None in
  let with_ban :=
    compose (Some userAccount) messageAccount text (Some previous)
      (Some target) in
  let first := compose None messageAccount text None None in
  instructions no_ban.1 =
    [ allocate_message;
      Instruction
        [signer userAccount; signer messageAccount; reference previous]
        program (Some textBuffer) ]
  /\ length (instructions with_ban.1) = 2%nat
  /\ head (instructions with_ban.1) = Some allocate_message
  /\ post_keys with_ban.1 = post_keys no_ban.1 ++ [reference target]
  /\ instructions first.1 =
       [ allocate_message;
         SystemProgram_createAccount (publicKey payerAccount)
           (publicKey fresh) 1 33%nat program;
         Instruction [signer fresh; signer messageAccount] program None ]
       ++ [ Instruction [signer fresh; signer messageAccount] program
              (Some textBuffer) ]
  /\ (forall p b,
        exists keys,
          instructions (compose None messageAccount text p b).1 =
            take 3 (instructions first.1)
              ++ [Instruction keys program (Some textBuffer)]).
Proof.
  cbv zeta.
  rewrite !compose_existing_user, !compose_new_user.
  repeat split.
  intros p b. rewrite compose_new_user. eexists. reflexivity.
Qed.

(** C4.  The ban target is appended to the keys of the post instruction,
    as an account that does not sign, exactly when a ban target and a
    previous message are both given; a ban target without a previous
    message changes nothing: the transaction and the signers are those
    of the composition without ban. *)
Theorem ban_key_needs_previous (userAccount : option Account)
    (previous target : option PublicKey) :
  let with_ban := compose userAccount messageAccount text previous target in
  let no_ban := compose userAccount messageAccount text previous None in
  ((exists b, target = Some b
              /\ post_keys with_ban.1 = post_keys no_ban.1 ++ [reference b])
     <-> is_Some previous /\ is_Some target)
  /\ (length (post_keys with_ban.1) = S (length (post_keys no_ban.1))
      <-> is_Some previous /\ is_Some target)
  /\ compose userAccount messageAccount text None target =
     compose userAccount messageAccount text None None.
Proof.
  cbv zeta.
  rewrite !post_keys_compose, compose_without_previous.
  split; [|split; [|reflexivity]].
  - split.
    + intros (b & -> & Hkeys).
      destruct previous as [p|]; [now split|].
      apply (f_equal length) in Hkeys.
      rewrite !length_app in Hkeys. simpl in Hkeys. lia.
    + intros [[p ->] [b ->]]. exists b. split; [reflexivity|].
      reflexivity.
  - destruct previous as [p|], target as [b|];
      rewrite !length_app; simpl; split;
      try (intros [[? ?] [? ?]]; discriminate); try lia; eauto.
Qed.

(** The whole function: the composed transaction is what is submitted,
    with its signers, once the payer is funded; when the funding fails,
    nothing is submitted. *)
Lemma postMessageWithProgramId_submits
    (newSystemAccountWithAirdrop : Z -> outcome Account)
    (sendAndConfirmTransaction :
       Transaction -> list Account -> outcome TransactionSignature)
    (userAccount : option Account) (previous target : option PublicKey) :
  postMessageWithProgramId newSystemAccountWithAirdrop fresh
    sendAndConfirmTransaction program userAccount messageAccount text
    previous target
  = match newSystemAccountWithAirdrop 200%Z with
    | Return payer =>
        let request :=
          postMessageWithProgramId_compose payer fresh program userAccount
            messageAccount text previous target in
        sendAndConfirmTransaction request.1 request.2
    | Throw e => Throw e
    end.
Proof.
  unfold postMessageWithProgramId. change (100 + 100)%Z with 200%Z.
  destruct (newSystemAccountWithAirdrop 200%Z) as [payer|e]; [|reflexivity].
  now destruct (postMessageWithProgramId_compose _ _ _ _ _ _ _ _).
Qed.
End ComposerFacts.

(** C7 as the specification words it fails: for the text ["hi"] the
    composer asks for 98 bytes, and the layout with its terminator takes
    99. *)
Lemma allocation_leaves_no_room_for_terminator :
  ~ space_holds_layout "hi"
      (postMessageWithProgramId_compose {| publicKey := 100 |}
         {| publicKey := 101 |} 7 (Some {| publicKey := 9 |})
         {| publicKey := 102 |} "hi" (Some 3) None).1.
Proof.
  intros (space & Hspace & Hle).
  vm_compute in Hspace. injection Hspace as <-.
  vm_compute in Hle. lia.
Qed.

(** C7, amended.  The size asked for the message account is the width of
    the pointer fields of the layout (three of 32 bytes, two in the earlier
    revision) plus the byte length of the text, whoever posts and whatever
    is referenced; it is one byte less than what the layout encodes with
    the terminator of the text. *)
Theorem allocation_size (payerAccount fresh : Account) (program : PublicKey)
    (userAccount : option Account) (messageAccount : Account) (text : string)
    (previous target : option PublicKey) :
  allocated_space
    (postMessageWithProgramId_compose payerAccount fresh program userAccount
       messageAccount text previous target).1
    = Some (32 + 32 + 32 + String.length text)%nat
  /\ messageAccountDataLayout_span text
     = S (32 + 32 + 32 + String.length text)%nat
  /\ allocated_space
       (Legacy.postMessageWithProgramId_compose payerAccount program
          messageAccount text previous).1
     = Some (32 + 32 + String.length text)%nat
  /\ Legacy.messageAccountDataLayout_span text
     = S (32 + 32 + String.length text)%nat.
Proof.
  unfold messageAccountDataLayout_span, Legacy.messageAccountDataLayout_span.
  rewrite length_cstr_encode.
  repeat split; try lia.
  - destruct userAccount, previous, target; cbn;
      now rewrite length_list_byte_of_string.
  - destruct previous; cbn; now rewrite length_list_byte_of_string.
Qed.

(** ** Reads *)

Lemma getAccountInfo_run (connection : gmap N AccountInfo) key t :
  getAccountInfo connection key t
  = (t ++ [EvGetAccountInfo key], Return (connection !! key)).
Proof. reflexivity. Qed.

Lemma userBanned_run (connection : gmap N AccountInfo) user t :
  userBanned connection user t
  = (t ++ [EvGetAccountInfo user], (userBanned connection user []).2).
Proof.
  unfold userBanned, bind, getAccountInfo, emit, ret, throw, lift; simpl.
  destruct (connection !! user) as [info|]; [|reflexivity].
  destruct (userAccountDataLayout_decode (data info)); reflexivity.
Qed.

Lemma readMessage_run (connection : gmap N AccountInfo) message t :
  readMessage connection message t
  = (t ++ [EvGetAccountInfo message], read_result connection message).
Proof.
  unfold read_result, readMessage, bind, getAccountInfo, emit, ret, throw,
    lift; simpl.
  destruct (connection !! message) as [info|]; [|reflexivity].
  destruct (new_PublicKey (blob_decode 32 (data info) 0)); [|reflexivity].
  destruct (new_PublicKey (blob_decode 32 (data info) 32)); reflexivity.
Qed.

(** ** Ban reader *)

(** C9.  On an account whose data are long enough for the user layout,
    [userBanned] returns a boolean, true exactly when the first byte is not
    zero; the answer depends on the bytes of the account only, so a later
    call (after any other effects, through any connection and key that give
    the same bytes) agrees with it. *)
Theorem userBanned_flag (connection : gmap N AccountInfo) (user : PublicKey)
    (info : AccountInfo) (t : list event) :
  connection !! user = Some info ->
  (1 + 32 <= length (data info))%nat ->
  exists flag,
    data info !! 0%nat = Some flag
    /\ (userBanned connection user t).2
       = Return (negb (Byte.to_N flag =? 0))
    /\ forall (connection' : gmap N AccountInfo) user' info' t',
         connection' !! user' = Some info' ->
         data info' = data info ->
         (userBanned connection' user' t').2
         = (userBanned connection user t).2.
Proof.
  intros Hinfo Hlen.
  destruct (data info) as [|flag rest] eqn:Hdata; [simpl in Hlen; lia|].
  exists flag. split; [reflexivity|].
  assert (Hrun : forall (c : gmap N AccountInfo) u i s,
             c !! u = Some i -> data i = flag :: rest ->
             (userBanned c u s).2 = Return (negb (Byte.to_N flag =? 0))).
  { intros c u i s Hc Hd.
    rewrite userBanned_run; simpl.
    unfold userBanned, bind, getAccountInfo, emit, ret, lift; simpl.
    rewrite Hc; unfold userAccountDataLayout_decode, u8_decode.
    rewrite Hd; reflexivity. }
  split.
  - now apply (Hrun connection user info).
  - intros c' u' i' t' Hc' Hd'.
    rewrite (Hrun c' u' i' t' Hc' Hd').
    symmetry. now apply (Hrun connection user info).
Qed.

Lemma userBanned_flag_witness :
  some_users !! 9 = Some (user_account 7 x01 0)
  /\ (1 + 32 <= length (data (user_account 7 x01 0)))%nat
  /\ exists flag,
       data (user_account 7 x01 0) !! 0%nat = Some flag
       /\ (userBanned some_users 9 []).2
          = Return (negb (Byte.to_N flag =? 0))
       /\ forall (connection' : gmap N AccountInfo) user' info' t',
            connection' !! user' = Some info' ->
            data info' = data (user_account 7 x01 0) ->
            (userBanned connection' user' t').2
            = (userBanned some_users 9 []).2.
Proof.
  split; [reflexivity|].
  split; [vm_compute; lia|].
  apply (userBanned_flag some_users 9 (user_account 7 x01 0) []);
    [reflexivity | vm_compute; lia].
Defined.

(** C10 as the specification words it fails: an account of a single byte,
    shorter than the layout, is answered with a boolean, and when the read
    yields [null] for a missing account the error is the runtime's
    [TypeError]. *)
Lemma userBanned_has_no_typed_errors :
  (userBanned some_users 6 []).2 = Return true
  /\ (userBanned some_users 4 []).2
     = Throw (TypeError "Cannot read property 'data' of null")
  /\ ~ (exists e, (userBanned some_users 6 []).2 = Throw e
                  /\ err_name e = "MalformedAccount")
  /\ ~ (exists e, (userBanned some_users 4 []).2 = Throw e
                  /\ err_name e = "AccountNotFound").
Proof.
  repeat split; try reflexivity.
  - intros (e & He & _). vm_compute in He. discriminate.
  - intros (e & He & Hname). vm_compute in He.
    injection He as <-. vm_compute in Hname. discriminate.
Qed.

(** C10, amended.  [userBanned] raises no [MalformedAccount] and no
    [AccountNotFound].  When the read yields [null], the identity having
    no backing account, the call fails with the runtime's [TypeError] and
    returns no boolean.  When the read yields an account that holds no
    data, it fails with the [RangeError] of the flag read and returns no
    boolean.  When the account holds one byte or more, even fewer than the
    33 of the layout, the call returns a boolean, true exactly when the
    first byte is not zero. *)
Theorem userBanned_failures (connection : gmap N AccountInfo)
    (user : PublicKey) (t : list event) :
  (connection !! user = None ->
   exists e, (userBanned connection user t).2 = Throw e
             /\ err_name e = "TypeError")
  /\ (forall info, connection !! user = Some info -> data info = [] ->
      exists e, (userBanned connection user t).2 = Throw e
                /\ err_name e = "RangeError")
  /\ (forall info flag rest,
        connection !! user = Some info -> data info = flag :: rest ->
        (userBanned connection user t).2
        = Return (negb (Byte.to_N flag =? 0))).
Proof.
  rewrite userBanned_run; simpl.
  unfold userBanned, bind, getAccountInfo, emit, ret, throw, lift; simpl.
  destruct (connection !! user) as [info|] eqn:Hinfo.
  - unfold userAccountDataLayout_decode, u8_decode.
    destruct (data info) as [|flag rest] eqn:Hdata; simpl.
    + repeat split; try discriminate.
      * intros i Hi _. eexists; split; reflexivity.
      * intros i f r Hi Hd. injection Hi as <-. congruence.
    + repeat split; try discriminate.
      * intros i Hi Hd. injection Hi as <-. congruence.
      * intros i f r Hi Hd. injection Hi as <-.
        rewrite Hdata in Hd. now injection Hd as <- <-.
  - repeat split; try discriminate.
    intros _. eexists; split; reflexivity.
Qed.

Lemma userBanned_failures_witness :
  (exists e, (userBanned some_users 4 []).2 = Throw e
             /\ err_name e = "TypeError")
  /\ (exists e, (userBanned some_users 5 []).2 = Throw e
                /\ err_name e = "RangeError")
  /\ (userBanned some_users 6 []).2 = Return (negb (Byte.to_N x01 =? 0)).
Proof.
  split; [|split].
  - apply (userBanned_failures some_users 4 []). reflexivity.
  - apply (proj1 (proj2 (userBanned_failures some_users 5 []))
             {| data := []; owner := 7 |}); reflexivity.
  - apply (proj2 (proj2 (userBanned_failures some_users 6 []))
             {| data := [x01]; owner := 7 |} x01 []); reflexivity.
Defined.

(** ** Feed synchronizer *)

Section SynchronizerFacts.
Variable publicKeyToName : PublicKey -> string.
Variable connection : gmap N AccountInfo.

Let refresh := refreshMessageFeed publicKeyToName.

Lemma notify_app (onNewMessage : option Callback) (t t' : list event) :
  notify onNewMessage (t ++ t') = t ++ notify onNewMessage t'.
Proof. destruct onNewMessage; simpl; [now rewrite app_assoc | reflexivity]. Qed.

Lemma refresh_sentinel fuel messages onNewMessage t :
  refresh (S fuel) connection messages onNewMessage (Some emptyMessage) t
  = Some (t, messages, Return tt).
Proof. reflexivity. Qed.

Lemma refresh_step fuel messages onNewMessage message messageData t :
  message <> emptyMessage ->
  read_result connection message = Return messageData ->
  refresh (S fuel) connection messages onNewMessage (Some message) t
  = refresh fuel connection
      (messages ++ [newMessage publicKeyToName message messageData])
      onNewMessage (Some (nextMessage messageData))
      (t ++ visit onNewMessage message).
Proof.
  intros Hne Hread. unfold refresh; simpl.
  unfold equals. destruct (N.eqb_spec message emptyMessage) as [|_]; [done|].
  rewrite readMessage_run, Hread.
  unfold visit. rewrite <- notify_app, <- app_assoc. reflexivity.
Qed.

Lemma refresh_throw fuel messages onNewMessage message e t :
  message <> emptyMessage ->
  read_result connection message = Throw e ->
  refresh (S fuel) connection messages onNewMessage (Some message) t
  = Some (t ++ [EvLoadingMessage message; EvGetAccountInfo message],
          messages, Throw e).
Proof.
  intros Hne Hread. unfold refresh; simpl.
  unfold equals. destruct (N.eqb_spec message emptyMessage) as [|_]; [done|].
  rewrite readMessage_run, Hread, <- app_assoc. reflexivity.
Qed.

Lemma refresh_resume fuel messages onNewMessage lastMessage lastMessageData t :
  last messages = Some lastMessage ->
  read_result connection (m_publicKey lastMessage) = Return lastMessageData ->
  refresh (S fuel) connection messages onNewMessage None t
  = refresh (S fuel) connection messages onNewMessage
      (Some (nextMessage lastMessageData))
      (t ++ [EvGetAccountInfo (m_publicKey lastMessage)]).
Proof.
  intros Hlast Hread. unfold refresh; simpl.
  rewrite Hlast, readMessage_run, Hread. reflexivity.
Qed.

Lemma refresh_resume_throw fuel messages onNewMessage lastMessage e t :
  last messages = Some lastMessage ->
  read_result connection (m_publicKey lastMessage) = Throw e ->
  refresh (S fuel) connection messages onNewMessage None t
  = Some (t ++ [EvGetAccountInfo (m_publicKey lastMessage)], messages,
          Throw e).
Proof.
  intros Hlast Hread. unfold refresh; simpl.
  rewrite Hlast, readMessage_run, Hread. reflexivity.
Qed.

(** Following a chain from its head appends its entries in order. *)
Lemma refresh_chain onNewMessage message l :
  chain connection message l ->
  forall fuel messages t,
    (length l < fuel)%nat ->
    refresh fuel connection messages onNewMessage (Some message) t
    = Some (t ++ visits onNewMessage l,
            messages ++ entries publicKeyToName l, Return tt).
Proof.
  induction 1 as [|message messageData rest Hne Hread _ IH];
    intros fuel messages t Hfuel;
    (destruct fuel as [|fuel]; [simpl in Hfuel; lia|]).
  - rewrite refresh_sentinel; simpl. now rewrite !app_nil_r.
  - rewrite (refresh_step _ _ _ _ _ _ Hne Hread).
    rewrite IH by (simpl in Hfuel; lia).
    simpl. now rewrite <- !app_assoc.
Qed.

(** A link of a chain reads back, and what follows it is a chain. *)
Lemma chain_lookup message l :
  chain connection message l ->
  forall i key messageData,
    l !! i = Some (key, messageData) ->
    read_result connection key = Return messageData
    /\ chain connection (nextMessage messageData) (drop (S i) l).
Proof.
  induction 1 as [|message messageData rest Hne Hread Hrest IH];
    intros i key md Hi; [done|].
  destruct i as [|i]; simpl in Hi.
  - injection Hi as <- <-. simpl. auto.
  - simpl. now apply IH.
Qed.

(** A run that starts at a message and returns has reached the tail. *)
Lemma refresh_reaches_tail onNewMessage fuel :
  forall messages message t t1 messages1,
    message <> emptyMessage ->
    refresh fuel connection messages onNewMessage (Some message) t
    = Some (t1, messages1, Return tt) ->
    at_tail connection messages1.
Proof.
  induction fuel as [|fuel IH]; intros messages message t t1 messages1 Hne Hrun;
    [discriminate|].
  destruct (read_result connection message) as [messageData|e] eqn:Hread.
  - rewrite (refresh_step _ _ _ _ _ _ Hne Hread) in Hrun.
    destruct (N.eq_dec (nextMessage messageData) emptyMessage) as [Hend|Hmore].
    + rewrite Hend in Hrun.
      destruct fuel as [|fuel]; [discriminate|].
      rewrite refresh_sentinel in Hrun. injection Hrun as _ <-.
      unfold at_tail. rewrite last_snoc. simpl. eauto.
    + eapply IH; eauto.
  - rewrite (refresh_throw _ _ _ _ _ _ Hne Hread) in Hrun. discriminate.
Qed.

(** At the tail, a refresh without starting point reads the last entry
    again and stops there. *)
Lemma refresh_at_tail onNewMessage fuel messages t :
  at_tail connection messages ->
  refresh (S fuel) connection messages onNewMessage None t
  = Some (t ++ match last messages with
               | Some lastMessage =>
                   [EvGetAccountInfo (m_publicKey lastMessage)]
               | None => []
               end,
          messages, Return tt).
Proof.
  unfold at_tail. destruct (last messages) as [lastMessage|] eqn:Hlast.
  - intros (lastMessageData & Hread & Hend).
    rewrite (refresh_resume _ _ _ _ _ _ Hlast Hread), Hend.
    apply refresh_sentinel.
  - intros _. unfold refresh; simpl. rewrite Hlast, app_nil_r. reflexivity.
Qed.

(** C2.  For a chain [A -> B -> C -> sentinel] on the ledger, a refresh
    that starts from [A] returns, whatever the view held, with the
    entries of [A], [B] and [C] appended to it in that order and nothing
    else changed.  The reads are issued one after the other, each awaited
    before the next, in the order of the chain. *)
Theorem order_preservation (a b c : PublicKey) (da db dc : MessageData)
    (messages : list Message) (onNewMessage : option Callback)
    (t : list event) (fuel : nat) :
  chain connection a [(a, da); (b, db); (c, dc)] ->
  (4 <= fuel)%nat ->
  refresh fuel connection messages onNewMessage (Some a) t
  = Some (t ++ visit onNewMessage a ++ visit onNewMessage b
            ++ visit onNewMessage c,
          messages ++ [ newMessage publicKeyToName a da;
                        newMessage publicKeyToName b db;
                        newMessage publicKeyToName c dc ],
          Return tt).
Proof.
  intros Hchain Hfuel.
  rewrite (refresh_chain onNewMessage a _ Hchain) by (simpl; lia).
  simpl. now rewrite app_nil_r.
Qed.

Lemma link_functional message s1 s2 :
  link connection message s1 -> link connection message s2 -> s1 = s2.
Proof.
  intros (_ & d1 & Hd1 & <-) (_ & d2 & Hd2 & <-). congruence.
Qed.

Lemma on_cycle_successor message successor :
  on_cycle connection message ->
  link connection message successor ->
  on_cycle connection successor.
Proof.
  unfold on_cycle. intros Hcycle Hlink.
  inversion Hcycle as [? ? Hfirst | ? y ? Hfirst Hback]; subst.
  - now rewrite <- (link_functional _ _ _ Hfirst Hlink).
  - rewrite (link_functional _ _ _ Hfirst Hlink) in Hback.
    eapply tc_r; eauto.
Qed.

Lemma on_cycle_link message :
  on_cycle connection message ->
  exists successor, link connection message successor.
Proof. unfold on_cycle. inversion 1; eauto. Qed.

(** From a message whose pointer repeats the loop never leaves. *)
Lemma refresh_cycle onNewMessage fuel :
  forall message messages t,
    on_cycle connection message ->
    refresh fuel connection messages onNewMessage (Some message) t = None.
Proof.
  induction fuel as [|fuel IH]; intros message messages t Hcycle;
    [reflexivity|].
  destruct (on_cycle_link _ Hcycle) as (successor & Hlink).
  pose proof (on_cycle_successor _ _ Hcycle Hlink) as Hnext.
  destruct Hlink as (Hne & messageData & Hread & <-).
  rewrite (refresh_step _ _ _ _ _ _ Hne Hread). now apply IH.
Qed.

(** C3, amended.  Over a chain of [N] messages that ends at the sentinel,
    a view that holds the first [k] entries is completed by a refresh:
    without starting point when [k] is positive, from the head of the
    chain when the view is empty.  The call returns, the view then holds
    the [N] entries, so [N - k] entries were appended.  There is no guard
    against a pointer that repeats: from a message that lies on a cycle
    the call neither returns nor fails, however many iterations it is
    given. *)
Theorem sentinel_termination (onNewMessage : option Callback) :
  (forall (head : PublicKey) (l : list (PublicKey * MessageData))
          (k : nat) (t : list event) (fuel : nat),
      chain connection head l ->
      (k <= length l)%nat ->
      (length l - k < fuel)%nat ->
      let known := entries publicKeyToName (take k l) in
      let start := match k with O => Some head | S _ => None end in
      exists t1 messages1,
        refresh fuel connection known onNewMessage start t
        = Some (t1, messages1, Return tt)
        /\ messages1 = entries publicKeyToName l
        /\ messages1 = known ++ entries publicKeyToName (drop k l)
        /\ length messages1 = (length known + (length l - k))%nat)
  /\ (forall (message : PublicKey) (messages : list Message)
             (t : list event) (fuel : nat),
        on_cycle connection message ->
        refresh fuel connection messages onNewMessage (Some message) t
        = None).
Proof.
  split; [|intros; now apply refresh_cycle].
  intros head l k t fuel Hchain Hk Hfuel known start.
  assert (Hsplit : entries publicKeyToName l
                   = known ++ entries publicKeyToName (drop k l)).
  { unfold known, entries. now rewrite <- map_app, take_drop. }
  assert (Hlen : length (entries publicKeyToName l)
                 = (length known + (length l - k))%nat).
  { rewrite Hsplit, length_app. unfold entries.
    rewrite !length_map, length_drop. lia. }
  destruct k as [|k]; subst start.
  - eexists _, _. split; [|split; [reflexivity|split; [exact Hsplit|exact Hlen]]].
    rewrite (refresh_chain onNewMessage head l Hchain) by lia.
    reflexivity.
  - destruct (lookup_lt_is_Some_2 l k) as [[key messageData] Hlookup]; [lia|].
    destruct (chain_lookup head l Hchain k key messageData Hlookup)
      as [Hread Hrest].
    assert (Hlast : last known
                    = Some (newMessage publicKeyToName key messageData)).
    { unfold known, entries.
      rewrite (take_S_r l k _ Hlookup), map_app. simpl. apply last_snoc. }
    destruct fuel as [|fuel]; [lia|].
    eexists _, _. split; [|split; [reflexivity|split; [exact Hsplit|exact Hlen]]].
    rewrite (refresh_resume _ _ _ _ _ _ Hlast Hread).
    rewrite (refresh_chain onNewMessage _ _ Hrest)
      by (rewrite length_drop; lia).
    now rewrite Hsplit.
Qed.

(** C5.  With the starting point omitted and an empty view the call
    returns at once: the trace is as it was (no account is read, the
    observer is not called) and the view is still empty. *)
Theorem refresh_empty_view_is_noop (fuel : nat)
    (onNewMessage : option Callback) (t : list event) :
  refresh (S fuel) connection [] onNewMessage None t
  = Some (t, [], Return tt).
Proof. reflexivity. Qed.

(** The earlier revision has no such test: the same call fails. *)
Lemma legacy_refresh_empty_view_throws (fuel : nat)
    (onNewMessage : option Callback) (t : list event) :
  Legacy.refreshMessageFeed publicKeyToName (S fuel) connection []
    onNewMessage None t
  = Some (t, [],
          Throw (TypeError "Cannot read property 'publicKey' of undefined")).
Proof. reflexivity. Qed.

(** C6.  Once a refresh has returned (from a starting message, or
    resuming from the view), a further refresh of the resulting view
    without starting point, over the same ledger, returns with the view
    as it was: nothing is appended, removed or changed, and the observer
    is not called; the only effect is the read of the last entry. *)
Theorem refresh_idempotent_at_tail (messages : list Message)
    (onNewMessage onNewMessage' : option Callback)
    (start : option PublicKey) (fuel fuel' : nat) (t t1 t' : list event)
    (messages1 : list Message) :
  refresh fuel connection messages onNewMessage start t
  = Some (t1, messages1, Return tt) ->
  start <> Some emptyMessage ->
  refresh (S fuel') connection messages1 onNewMessage' None t'
  = Some (t' ++ match last messages1 with
                | Some lastMessage =>
                    [EvGetAccountInfo (m_publicKey lastMessage)]
                | None => []
                end,
          messages1, Return tt).
Proof.
  intros Hrun Hstart.
  apply refresh_at_tail.
  destruct start as [message|].
  - eapply refresh_reaches_tail; [|exact Hrun]. congruence.
  - destruct fuel as [|fuel]; [discriminate|].
    destruct (last messages) as [lastMessage|] eqn:Hlast.
    + destruct (read_result connection (m_publicKey lastMessage))
        as [lastMessageData|e] eqn:Hread.
      * rewrite (refresh_resume _ _ _ _ _ _ Hlast Hread) in Hrun.
        destruct (N.eq_dec (nextMessage lastMessageData) emptyMessage)
          as [Hend|Hmore].
        -- rewrite Hend, refresh_sentinel in Hrun. injection Hrun as _ <-.
           unfold at_tail. rewrite Hlast. eauto.
        -- eapply refresh_reaches_tail; [exact Hmore | exact Hrun].
      * rewrite (refresh_resume_throw _ _ _ _ _ _ Hlast Hread) in Hrun.
        discriminate.
    + unfold refresh in Hrun; simpl in Hrun. rewrite Hlast in Hrun.
      injection Hrun as _ <-. unfold at_tail. now rewrite Hlast.
Qed.
End SynchronizerFacts.

(** *** The feed of three messages and the self-referring message *)

Lemma three_messages_chain : chain three_messages 1 three_chain.
Proof.
  unfold three_chain.
  repeat (apply chain_link; [discriminate | vm_compute; reflexivity | simpl]).
  apply chain_end.
Qed.

Lemma self_loop_on_cycle : on_cycle self_loop 1.
Proof.
  apply tc_once. split; [discriminate|].
  eexists. split; [vm_compute; reflexivity | reflexivity].
Qed.

Lemma order_preservation_witness :
  chain three_messages 1 three_chain
  /\ (4 <= 4)%nat
  /\ refreshMessageFeed name_of 4 three_messages [] (Some 5%nat) (Some 1) []
     = Some ([ EvLoadingMessage 1; EvGetAccountInfo 1; EvCall 5%nat;
               EvLoadingMessage 2; EvGetAccountInfo 2; EvCall 5%nat;
               EvLoadingMessage 3; EvGetAccountInfo 3; EvCall 5%nat ],
             entries name_of three_chain, Return tt).
Proof.
  split; [exact three_messages_chain|].
  split; [lia|].
  apply (order_preservation name_of three_messages 1 2 3 _ _ _ []
           (Some 5%nat) [] 4);
    [exact three_messages_chain | lia].
Defined.

(** C3 as the specification words it fails: on a message that names itself
    as its successor the call neither returns nor fails, whatever the
    number of iterations. *)
Lemma refresh_cycle_never_returns :
  ~ exists fuel r,
      refreshMessageFeed name_of fuel self_loop [] None (Some 1) [] = Some r.
Proof.
  intros (fuel & r & Hrun).
  rewrite (refresh_cycle name_of self_loop None fuel 1 [] []
             self_loop_on_cycle) in Hrun.
  discriminate.
Qed.

Lemma sentinel_termination_witness :
  (chain three_messages 1 three_chain
   /\ (1 <= length three_chain)%nat
   /\ (length three_chain - 1 < 3)%nat
   /\ exists t1 messages1,
        refreshMessageFeed name_of 3 three_messages
          (entries name_of (take 1 three_chain)) None None []
        = Some (t1, messages1, Return tt)
        /\ messages1 = entries name_of three_chain
        /\ messages1 = entries name_of (take 1 three_chain)
                         ++ entries name_of (drop 1 three_chain)
        /\ length messages1
           = (length (entries name_of (take 1 three_chain))
              + (length three_chain - 1))%nat)
  /\ (on_cycle self_loop 1
      /\ refreshMessageFeed name_of 1000 self_loop [] None (Some 1) [] = None).
Proof.
  split.
  - split; [exact three_messages_chain|].
    split; [simpl; lia|].
    split; [simpl; lia|].
    apply (proj1 (sentinel_termination name_of three_messages None)
             1 three_chain 1%nat [] 3%nat);
      [exact three_messages_chain | simpl; lia | simpl; lia].
  - split; [exact self_loop_on_cycle|].
    apply (proj2 (sentinel_termination name_of self_loop None));
      exact self_loop_on_cycle.
Defined.

Lemma refresh_idempotent_at_tail_witness :
  refreshMessageFeed name_of 4 three_messages [] None (Some 1) []
  = Some (visits None three_chain, entries name_of three_chain, Return tt)
  /\ Some 1 <> Some emptyMessage
  /\ refreshMessageFeed name_of 1 three_messages
       (entries name_of three_chain) (Some 5%nat) None []
     = Some ([EvGetAccountInfo 3], entries name_of three_chain, Return tt).
Proof.
  split; [vm_compute; reflexivity|].
  split; [discriminate|].
  apply (refresh_idempotent_at_tail name_of three_messages [] None
           (Some 5%nat) (Some 1) 4 0 [] (visits None three_chain) []
           (entries name_of three_chain));
    [vm_compute; reflexivity | discriminate].
Defined.

(** ** Bootstrap poller *)

Section PollerFacts.
Variable fetch : string -> nat -> FetchResult.
Variable PublicKey_of_value : JsValue -> outcome PublicKey.
Variable configUrl : string.

Let attempt := try_fetch fetch PublicKey_of_value configUrl.
Let poll := getFirstMessage fetch PublicKey_of_value.
Let events := poll_trace fetch PublicKey_of_value configUrl.

Lemma poll_return fuel n t metadata :
  attempt n = Return (Some metadata) ->
  poll (S fuel) configUrl n t
  = Some (S n, t ++ [EvFetch configUrl], Return metadata).
Proof. unfold poll, attempt; simpl. now intros ->. Qed.

Lemma poll_retry fuel n t :
  ready (attempt n) = false ->
  poll (S fuel) configUrl n t
  = poll fuel configUrl (S n) (t ++ attempt_events configUrl (attempt n)).
Proof.
  unfold poll, attempt, attempt_events; simpl.
  destruct (try_fetch _ _ _ _) as [[metadata|]|err]; simpl;
    [discriminate | |]; intros _; now rewrite <- app_assoc.
Qed.

Lemma events_S n k :
  events n (S k) = attempt_events configUrl (attempt n) ++ events (S n) k.
Proof. reflexivity. Qed.

(** What a ready attempt has seen. *)
Lemma attempt_ready n metadata :
  attempt n = Return (Some metadata) ->
  exists config loading,
    fetch configUrl n = JsonBody config
    /\ get config "loading" = Return loading
    /\ truthy loading = false
    /\ metadata_of PublicKey_of_value config metadata.
Proof.
  unfold attempt, try_fetch, metadata_of.
  destruct (fetch configUrl n) as [err|err|config]; try discriminate.
  destruct (get config "loading") as [loading|err] eqn:Hloading;
    try discriminate.
  destruct (truthy loading) eqn:Hfalse; simpl; try discriminate.
  destruct (get config "firstMessage") as [v1|] eqn:Hv1; try discriminate.
  destruct (PublicKey_of_value v1) as [k1|] eqn:Hk1; try discriminate.
  destruct (get config "loginMethod") as [method|] eqn:Hmethod;
    try discriminate.
  destruct (get config "programId") as [v2|] eqn:Hv2; try discriminate.
  destruct (PublicKey_of_value v2) as [k2|] eqn:Hk2; try discriminate.
  destruct (get config "url") as [u|] eqn:Hu; try discriminate.
  intros [= <-]. exists config, loading; simpl.
  repeat split; eauto.
Qed.

(** How an attempt that fails or finds the feed loading is handled. *)
Lemma attempt_rejected n err :
  fetch configUrl n = FetchRejected err \/ fetch configUrl n = JsonRejected err ->
  attempt n = Throw err.
Proof. unfold attempt, try_fetch. now intros [-> | ->]. Qed.

Lemma attempt_loading n config loading :
  fetch configUrl n = JsonBody config ->
  get config "loading" = Return loading ->
  truthy loading = true ->
  attempt n = Return None.
Proof. unfold attempt, try_fetch. now intros -> -> ->. Qed.

(** The poller returns at the first ready attempt. *)
Lemma poll_converges k :
  forall n t fuel metadata,
    (forall i, (n <= i < n + k)%nat -> ready (attempt i) = false) ->
    attempt (n + k)%nat = Return (Some metadata) ->
    (k < fuel)%nat ->
    poll fuel configUrl n t
    = Some (S (n + k), t ++ events n (S k), Return metadata).
Proof.
  induction k as [|k IH]; intros n t fuel metadata Hwait Hready Hfuel;
    (destruct fuel as [|fuel]; [lia|]).
  - rewrite Nat.add_0_r in *. rewrite (poll_return _ _ _ _ Hready).
    rewrite events_S, Hready. reflexivity.
  - rewrite poll_retry by (apply Hwait; lia).
    replace (n + S k)%nat with (S n + k)%nat in * by lia.
    rewrite (IH (S n) _ fuel metadata); try lia; try assumption.
    + now rewrite (events_S n (S k)), <- app_assoc.
    + intros i Hi. apply Hwait. lia.
Qed.

(** Whenever the poller returns, it returns the metadata of the first
    ready attempt, after the effects of the attempts before it. *)
Lemma poll_sound fuel :
  forall n t n1 t1 o,
    poll fuel configUrl n t = Some (n1, t1, o) ->
    exists metadata k,
      o = Return metadata
      /\ n1 = S (n + k)
      /\ attempt (n + k)%nat = Return (Some metadata)
      /\ (forall i, (n <= i < n + k)%nat -> ready (attempt i) = false)
      /\ t1 = t ++ events n (S k).
Proof.
  induction fuel as [|fuel IH]; intros n t n1 t1 o Hrun; [discriminate|].
  destruct (attempt n) as [[metadata|]|err] eqn:Hattempt.
  - rewrite (poll_return _ _ _ _ Hattempt) in Hrun. injection Hrun as <- <- <-.
    exists metadata, 0%nat. rewrite Nat.add_0_r.
    repeat split; auto; [lia|].
    rewrite events_S, Hattempt. reflexivity.
  - rewrite poll_retry in Hrun by now rewrite Hattempt.
    destruct (IH _ _ _ _ _ Hrun) as (metadata & k & -> & -> & Hready & Hwait & ->).
    exists metadata, (S k).
    replace (n + S k)%nat with (S n + k)%nat by lia.
    repeat split; auto.
    + intros i Hi. destruct (decide (i = n)) as [->|]; [now rewrite Hattempt|].
      apply Hwait. lia.
    + now rewrite (events_S n (S k)), <- app_assoc.
  - rewrite poll_retry in Hrun by now rewrite Hattempt.
    destruct (IH _ _ _ _ _ Hrun) as (metadata & k & -> & -> & Hready & Hwait & ->).
    exists metadata, (S k).
    replace (n + S k)%nat with (S n + k)%nat by lia.
    repeat split; auto.
    + intros i Hi. destruct (decide (i = n)) as [->|]; [now rewrite Hattempt|].
      apply Hwait. lia.
    + now rewrite (events_S n (S k)), <- app_assoc.
Qed.

(** C8, amended.  (1) When [getFirstMessage] returns, it returns
    normally, with the metadata read from a response it has just fetched,
    whose [loading] is falsy (the test is [!config.loading]: [false], but
    also an absent property, [null], [0] or the empty string); every
    attempt before that one was not ready, and the trace holds the effects
    of these attempts in order.  (2) An attempt whose fetch or JSON parse
    fails, or whose response has a truthy [loading], is logged (on the
    error channel for a failure), followed by a sleep of 1000 ms, and the
    loop goes on with the next request; nothing is raised.  (3) With the
    responses loading, error, loading, ready, the call returns the
    metadata of the fourth response after exactly four requests. *)
Theorem poller_convergence :
  (forall fuel n t n1 t1 o,
      poll fuel configUrl n t = Some (n1, t1, o) ->
      exists metadata k config loading,
        o = Return metadata
        /\ n1 = S (n + k)
        /\ fetch configUrl (n + k) = JsonBody config
        /\ get config "loading" = Return loading
        /\ truthy loading = false
        /\ metadata_of PublicKey_of_value config metadata
        /\ (forall i, (n <= i < n + k)%nat -> ready (attempt i) = false)
        /\ t1 = t ++ events n (S k))
  /\ (forall fuel n t err,
        fetch configUrl n = FetchRejected err
        \/ fetch configUrl n = JsonRejected err ->
        poll (S fuel) configUrl n t
        = poll fuel configUrl (S n)
            (t ++ [EvFetch configUrl; EvConsoleError err; EvSleep 1000]))
  /\ (forall fuel n t config loading,
        fetch configUrl n = JsonBody config ->
        get config "loading" = Return loading ->
        truthy loading = true ->
        poll (S fuel) configUrl n t
        = poll fuel configUrl (S n)
            (t ++ [EvFetch configUrl; EvWaiting; EvSleep 1000]))
  /\ (forall fuel c0 err c2 c3 metadata,
        fetch configUrl 0 = JsonBody c0 ->
        get c0 "loading" = Return (JBool true) ->
        fetch configUrl 1 = FetchRejected err ->
        fetch configUrl 2 = JsonBody c2 ->
        get c2 "loading" = Return (JBool true) ->
        fetch configUrl 3 = JsonBody c3 ->
        get c3 "loading" = Return (JBool false) ->
        metadata_of PublicKey_of_value c3 metadata ->
        (4 <= fuel)%nat ->
        poll fuel configUrl 0 []
        = Some (4%nat,
                [ EvFetch configUrl; EvWaiting; EvSleep 1000;
                  EvFetch configUrl; EvConsoleError err; EvSleep 1000;
                  EvFetch configUrl; EvWaiting; EvSleep 1000;
                  EvFetch configUrl ],
                Return metadata)).
Proof.
  split; [|split; [|split]].
  - intros fuel n t n1 t1 o Hrun.
    destruct (poll_sound _ _ _ _ _ _ Hrun)
      as (metadata & k & -> & -> & Hready & Hwait & ->).
    destruct (attempt_ready _ _ Hready)
      as (config & loading & Hfetch & Hloading & Hfalse & Hmeta).
    exists metadata, k, config, loading. auto 10.
  - intros fuel n t err Hfetch.
    rewrite poll_retry; rewrite (attempt_rejected _ _ Hfetch); reflexivity.
  - intros fuel n t config loading Hfetch Hloading Htrue.
    rewrite poll_retry;
      rewrite (attempt_loading _ _ _ Hfetch Hloading Htrue); reflexivity.
  - intros fuel c0 err c2 c3 metadata H0 L0 H1 H2 L2 H3 L3 Hmeta Hfuel.
    assert (A0 : attempt 0%nat = Return None)
      by exact (attempt_loading _ _ _ H0 L0 eq_refl).
    assert (A1 : attempt 1%nat = Throw err)
      by (apply attempt_rejected; now left).
    assert (A2 : attempt 2%nat = Return None)
      by exact (attempt_loading _ _ _ H2 L2 eq_refl).
    assert (A3 : attempt 3%nat = Return (Some metadata)).
    { unfold attempt, try_fetch. rewrite H3, L3. simpl.
      destruct Hmeta as ((v1 & -> & ->) & -> & (v2 & -> & ->) & ->).
      now destruct metadata. }
    rewrite (poll_converges 3 0 [] fuel metadata); [| | exact A3 | lia].
    + unfold events, poll_trace. simpl. fold attempt.
      rewrite A0, A1, A2, A3. reflexivity.
    + intros i Hi.
      assert (i = 0 \/ i = 1 \/ i = 2)%nat as [-> | [-> | ->]] by lia;
        now rewrite ?A0, ?A1, ?A2.
Qed.
End PollerFacts.

(** Whatever the endpoint and the key parser, a response whose [loading]
    is falsy and whose keys are accepted is returned at once. *)
Lemma poll_returns_on_falsy_loading (fetch : string -> nat -> FetchResult)
    (PublicKey_of_value : JsValue -> outcome PublicKey) (configUrl : string)
    (fuel n : nat) (t : list event) (config loading : JsValue)
    (metadata : FeedMetadata) :
  fetch configUrl n = JsonBody config ->
  get config "loading" = Return loading ->
  truthy loading = false ->
  metadata_of PublicKey_of_value config metadata ->
  getFirstMessage fetch PublicKey_of_value (S fuel) configUrl n t
  = Some (S n, t ++ [EvFetch configUrl], Return metadata).
Proof.
  intros Hfetch Hloading Hfalse ((v1 & Hv1 & Hk1) & Hmethod & (v2 & Hv2 & Hk2) & Hurl).
  apply poll_return. unfold try_fetch.
  rewrite Hfetch, Hloading, Hfalse, Hv1, Hk1, Hmethod, Hv2, Hk2, Hurl.
  now destruct metadata.
Qed.

(** C8 as the specification words it fails: the poller returns on a
    response that does not say [loading = false], because it says nothing
    of [loading] or gives it as [0]. *)
Lemma poller_returns_without_loading_false :
  getFirstMessage (fun _ _ => JsonBody config_without_loading) key_of_hex 1
    "http://localhost:8081/config.json" 0 []
  = Some (1%nat, [EvFetch "http://localhost:8081/config.json"],
          Return {| firstMessage := 1; loginMethod := JUndefined;
                    feedProgramId := 7; url := JUndefined |})
  /\ get config_without_loading "loading" = Return JUndefined
  /\ getFirstMessage (fun _ _ => JsonBody config_loading_zero) key_of_hex 1
       "http://localhost:8081/config.json" 0 []
     = Some (1%nat, [EvFetch "http://localhost:8081/config.json"],
             Return {| firstMessage := 1; loginMethod := JUndefined;
                       feedProgramId := 7; url := JUndefined |})
  /\ get config_loading_zero "loading" = Return (JNumber 0)
  /\ ~ (forall (fetch : string -> nat -> FetchResult) fuel n t n1 t1 o,
          getFirstMessage fetch key_of_hex fuel
            "http://localhost:8081/config.json" n t = Some (n1, t1, o) ->
          exists config,
            fetch "http://localhost:8081/config.json" (n1 - 1)%nat
            = JsonBody config
            /\ get config "loading" = Return (JBool false)).
Proof.
  repeat split.
  intros Honly.
  destruct (Honly (fun _ _ => JsonBody config_without_loading) 1%nat 0%nat []
              1%nat _ _ eq_refl)
    as (config & Hfetch & Hloading).
  injection Hfetch as <-. discriminate.
Qed.

Lemma poller_convergence_witness :
  getFirstMessage scripted key_of_hex 4 "http://localhost:8081/config.json"
    0 []
  = Some (4%nat,
          [ EvFetch "http://localhost:8081/config.json";
            EvWaiting; EvSleep 1000;
            EvFetch "http://localhost:8081/config.json";
            EvConsoleError (Error "connect ECONNREFUSED"); EvSleep 1000;
            EvFetch "http://localhost:8081/config.json";
            EvWaiting; EvSleep 1000;
            EvFetch "http://localhost:8081/config.json" ],
          Return {| firstMessage := 1;
                    loginMethod := JString "local";
                    feedProgramId := 7;
                    url := JString "http://localhost:8899" |}).
Proof.
  apply (proj2 (proj2 (proj2
           (poller_convergence scripted key_of_hex
              "http://localhost:8081/config.json")))
           4%nat loading_config (Error "connect ECONNREFUSED") loading_config
           ready_config);
    try reflexivity.
  unfold metadata_of; simpl.
  repeat split; try reflexivity; eexists; split; reflexivity.
Defined.


(** * Further properties *)

(** ** Reading message accounts *)

Lemma strlen_until_nul (s rest : list byte) :
  Forall (fun x => is_nul x = false) s ->
  strlen (s ++ x00 :: rest) = length s.
Proof.
  induction 1 as [|x s Hx _ IH]; simpl; [reflexivity | now rewrite Hx, IH].
Qed.

Lemma cstr_decode_short (b : list byte) (offset : nat) :
  (length b <= offset)%nat -> cstr_decode b offset = "".
Proof.
  intros Hlen. unfold cstr_decode, cstr_getSpan.
  now rewrite drop_ge by assumption.
Qed.

Lemma BN_of_blob_lt (b : list byte) (offset : nat) :
  BN_of_bytes (blob_decode 32 b offset) < 2 ^ 256.
Proof.
  eapply N.lt_le_trans; [apply BN_of_bytes_lt|].
  change (2 ^ 256) with (256 ^ N.of_nat 32).
  apply N.pow_le_mono_r; [lia|].
  pose proof (length_blob_decode 32 b offset). lia.
Qed.

(** X1.  [readMessage] never fails on an account that exists, whatever its
    bytes: it performs the one read, takes the owner as program, and
    decodes pointers below [2 ^ 256]; what the data are too short to hold
    reads as empty (no text at 96 bytes or fewer, a zero pointer from no
    data at all). *)
Theorem readMessage_accepts_any_data (connection : gmap N AccountInfo)
    (message : PublicKey) (info : AccountInfo) (t : list event) :
  connection !! message = Some info ->
  exists messageData,
    readMessage connection message t
    = (t ++ [EvGetAccountInfo message], Return messageData)
    /\ programId messageData = owner info
    /\ nextMessage messageData < 2 ^ 256
    /\ from messageData < 2 ^ 256
    /\ ((length (data info) <= 96)%nat -> text messageData = "")
    /\ (data info = [] ->
        nextMessage messageData = emptyMessage /\ from messageData = 0).
Proof.
  intros Hinfo.
  eexists. rewrite readMessage_run, (read_result_Some _ _ _ Hinfo).
  split; [reflexivity|]. cbn [programId nextMessage from text].
  split; [reflexivity|].
  split; [apply BN_of_blob_lt|].
  split; [apply BN_of_blob_lt|].
  split.
  - apply cstr_decode_short.
  - intros ->. split; reflexivity.
Qed.

Lemma readMessage_accepts_any_data_witness :
  some_users !! 6 = Some {| data := [x01]; owner := 7 |}
  /\ exists messageData,
       readMessage some_users 6 []
       = ([EvGetAccountInfo 6], Return messageData)
       /\ programId messageData = 7
       /\ nextMessage messageData < 2 ^ 256
       /\ from messageData < 2 ^ 256
       /\ ((length [x01] <= 96)%nat -> text messageData = "")
       /\ ([x01] = [] ->
           nextMessage messageData = emptyMessage /\ from messageData = 0).
Proof.
  split; [reflexivity|].
  apply (readMessage_accepts_any_data some_users 6
           {| data := [x01]; owner := 7 |} []).
  reflexivity.
Defined.

(** X2.  Round trip through an account of exactly the size the composer
    allocates for a text: when the data are the three pointers followed by
    the bytes of the text, with pointers below [2 ^ 256] and a text of
    well-formed UTF-8 without NUL, [readMessage] gives back the successor,
    the author, the owner and the text, although no terminator follows the
    text. *)
Theorem message_round_trip (connection : gmap N AccountInfo)
    (message program next author maker : PublicKey) (text : string)
    (payerAccount fresh messageAccount : Account)
    (userAccount : option Account) (previous target : option PublicKey)
    (t : list event) :
  connection !! message
    = Some (message_account program next author maker text) ->
  next < 2 ^ 256 ->
  author < 2 ^ 256 ->
  Forall (fun x => is_nul x = false) (String.list_byte_of_string text) ->
  valid_text text = true ->
  readMessage connection message t
  = (t ++ [EvGetAccountInfo message],
     Return {| nextMessage := next; from := author;
               programId := program; text := text |})
  /\ allocated_space
       (postMessageWithProgramId_compose payerAccount fresh program
          userAccount messageAccount text previous target).1
     = Some (length (data (message_account program next author maker text))).
Proof.
  intros Hinfo Hnext Hauthor Hnul Hvalid.
  destruct (read_message_account _ _ _ _ _ _ _ Hinfo Hnext Hauthor Hnul
              Hvalid)
    as [Hlen Hread].
  rewrite readMessage_run, Hread, Hlen. split; [reflexivity|].
  destruct userAccount, previous, target; cbn;
    now rewrite length_list_byte_of_string.
Qed.

Lemma message_round_trip_witness :
  three_messages !! 2 = Some (message_account 7 3 9 9 "second")
  /\ 3 < 2 ^ 256
  /\ 9 < 2 ^ 256
  /\ Forall (fun x => is_nul x = false) (String.list_byte_of_string "second")
  /\ valid_text "second" = true
  /\ readMessage three_messages 2 []
     = ([EvGetAccountInfo 2],
        Return {| nextMessage := 3; from := 9; programId := 7;
                  text := "second" |})
  /\ allocated_space
       (postMessageWithProgramId_compose {| publicKey := 100 |}
          {| publicKey := 101 |} 7 (Some {| publicKey := 9 |})
          {| publicKey := 2 |} "second" (Some 1) None).1
     = Some (length (data (message_account 7 3 9 9 "second"))).
Proof.
  assert (Hnul : Forall (fun x => is_nul x = false)
                   (String.list_byte_of_string "second"))
    by (repeat constructor).
  split; [reflexivity|].
  split; [reflexivity|].
  split; [reflexivity|].
  split; [exact Hnul|].
  split; [reflexivity|].
  apply (message_round_trip three_messages 2 7 3 9 9 "second"
           {| publicKey := 100 |} {| publicKey := 101 |} {| publicKey := 2 |}
           (Some {| publicKey := 9 |}) (Some 1) None []);
    [reflexivity | reflexivity | reflexivity | exact Hnul | reflexivity].
Defined.

(** X3.  The text read from an account stops at the first NUL after the
    pointer fields: when the bytes before that NUL are well-formed UTF-8,
    they are the text read, whatever follows; bytes behind the NUL are
    dropped, and a text stored with its terminator reads back without
    it. *)
Theorem text_stops_at_first_nul (connection : gmap N AccountInfo)
    (message : PublicKey) (info : AccountInfo)
    (fields : list byte) (s : string) (behind : list byte)
    (t : list event) :
  connection !! message = Some info ->
  data info = fields ++ String.list_byte_of_string s ++ x00 :: behind ->
  length fields = 96%nat ->
  Forall (fun x => is_nul x = false) (String.list_byte_of_string s) ->
  valid_text s = true ->
  exists messageData,
    (readMessage connection message t).2 = Return messageData
    /\ text messageData = s.
Proof.
  intros Hinfo Hdata Hfields Hnul Hvalid.
  eexists. rewrite readMessage_run, (read_result_Some _ _ _ Hinfo).
  split; [reflexivity|]. cbn [text].
  unfold cstr_decode, cstr_getSpan. rewrite Hdata.
  rewrite drop_app_length' by (symmetry; exact Hfields).
  rewrite strlen_until_nul by assumption.
  rewrite Nat.add_comm, Nat.add_sub, take_app_length.
  rewrite (toString_utf8_well_formed _ Hvalid).
  apply String.string_of_list_byte_of_string.
Qed.

Lemma text_stops_at_first_nul_witness :
  exists info,
    with_nul !! 1 = Some info
    /\ data info
       = (toBuffer 0 ++ toBuffer 9 ++ toBuffer 9)
           ++ String.list_byte_of_string "ab"
           ++ x00 :: String.list_byte_of_string "cd"
    /\ length (toBuffer 0 ++ toBuffer 9 ++ toBuffer 9) = 96%nat
    /\ Forall (fun x => is_nul x = false) (String.list_byte_of_string "ab")
    /\ valid_text "ab" = true
    /\ exists messageData,
         (readMessage with_nul 1 []).2 = Return messageData
         /\ text messageData = "ab".
Proof.
  assert (Hnul : Forall (fun x => is_nul x = false)
                   (String.list_byte_of_string "ab"))
    by (repeat constructor).
  eexists. split; [reflexivity|].
  split; [reflexivity|].
  split; [reflexivity|].
  split; [exact Hnul|].
  split; [reflexivity|].
  eapply (text_stops_at_first_nul with_nul 1 _
            (toBuffer 0 ++ toBuffer 9 ++ toBuffer 9) "ab"
            (String.list_byte_of_string "cd") []);
    [reflexivity | reflexivity | reflexivity | exact Hnul | reflexivity].
Defined.

(** X4.  The readers of the two revisions differ in the offset of the text
    only: on every key they perform the same read, fail alike, and agree
    on the successor, the author and the program, so both follow the same
    chain. *)
Theorem readers_agree_on_pointers (connection : gmap N AccountInfo)
    (message : PublicKey) (t : list event) :
  (readMessage connection message t).1
  = (Legacy.readMessage connection message t).1
  /\ match (readMessage connection message t).2,
           (Legacy.readMessage connection message t).2 with
     | Return current, Return earlier =>
         nextMessage current = nextMessage earlier
         /\ from current = from earlier
         /\ programId current = programId earlier
         /\ exists info,
              connection !! message = Some info
              /\ text current = cstr_decode (data info) 96
              /\ text earlier = cstr_decode (data info) 64
     | Throw e, Throw e' => e = e'
     | _, _ => False
     end.
Proof.
  unfold readMessage, Legacy.readMessage, bind, getAccountInfo, emit, ret,
    throw, lift; simpl.
  destruct (connection !! message) as [info|]; [|split; reflexivity].
  unfold messageAccountDataLayout_decode,
    Legacy.messageAccountDataLayout_decode; simpl.
  rewrite !new_PublicKey_blob by apply length_blob_decode.
  split; [reflexivity|]. simpl. eauto 10.
Qed.

(** ** The synchronizer, whatever the ledger holds *)

Lemma count_app (p : event -> bool) (t t' : list event) :
  count p (t ++ t') = (count p t + count p t')%nat.
Proof. unfold count. now rewrite List.filter_app, length_app. Qed.

Lemma read_result_inv (connection : gmap N AccountInfo) (message : PublicKey)
    (messageData : MessageData) :
  read_result connection message = Return messageData ->
  exists info,
    connection !! message = Some info
    /\ from messageData = BN_of_bytes (blob_decode 32 (data info) 32)
    /\ text messageData = cstr_decode (data info) 96.
Proof.
  destruct (connection !! message) as [info|] eqn:Hinfo.
  - rewrite (read_result_Some _ _ _ Hinfo). intros [= <-]. eauto.
  - now rewrite (read_result_None _ _ Hinfo).
Qed.

Section SynchronizerInvariants.
Variable publicKeyToName : PublicKey -> string.
Variable connection : gmap N AccountInfo.
Variable onNewMessage : option Callback.

Local Abbreviation refresh := (refreshMessageFeed publicKeyToName).
Let calls_per_entry : nat :=
  match onNewMessage with Some _ => 1%nat | None => 0%nat end.

Lemma count_call_visit (message : PublicKey) :
  count is_call (visit onNewMessage message) = calls_per_entry.
Proof. unfold visit, notify, calls_per_entry. now destruct onNewMessage. Qed.

Lemma call_in_visit (message : PublicKey) (f : Callback) :
  In (EvCall f) (visit onNewMessage message) -> onNewMessage = Some f.
Proof.
  unfold visit, notify. destruct onNewMessage as [g|]; simpl.
  - intros [|[|[[= ->]|[]]]]; try discriminate. reflexivity.
  - intros [|[|[]]]; discriminate.
Qed.

(** What a run from a given message has done when it comes back. *)
Lemma refresh_from_invariant (fuel : nat) :
  forall messages message t t1 messages1 o,
    refresh fuel connection messages onNewMessage (Some message) t
    = Some (t1, messages1, o) ->
    exists added extra,
      messages1 = messages ++ added
      /\ t1 = t ++ extra
      /\ Forall (genuine publicKeyToName connection) added
      /\ count is_call extra = (length added * calls_per_entry)%nat
      /\ (forall f, In (EvCall f) extra -> onNewMessage = Some f).
Proof.
  induction fuel as [|fuel IH]; intros messages message t t1 messages1 o Hrun;
    [discriminate|].
  destruct (N.eq_dec message emptyMessage) as [->|Hne].
  - rewrite refresh_sentinel in Hrun. injection Hrun as <- <- <-.
    exists [], []. rewrite !app_nil_r. repeat split; auto. intros f [].
  - destruct (read_result connection message) as [messageData|e] eqn:Hread.
    + rewrite (refresh_step _ _ _ _ _ _ _ _ Hne Hread) in Hrun.
      destruct (IH _ _ _ _ _ _ Hrun)
        as (added & extra & -> & -> & Hgenuine & Hcalls & Hsame).
      exists (newMessage publicKeyToName message messageData :: added),
        (visit onNewMessage message ++ extra).
      rewrite <- !app_assoc. repeat split; auto.
      * constructor; [|exact Hgenuine].
        destruct (read_result_inv _ _ _ Hread) as (info & Hinfo & Hfrom & Htext).
        repeat split; auto. exists info. auto.
      * rewrite count_app, count_call_visit, Hcalls. simpl. lia.
      * intros f Hin. apply in_app_or in Hin as [Hin|Hin];
          [now apply call_in_visit in Hin | now apply Hsame].
    + rewrite (refresh_throw _ _ _ _ _ _ _ _ Hne Hread) in Hrun.
      injection Hrun as <- <- <-.
      exists [], [EvLoadingMessage message; EvGetAccountInfo message].
      rewrite app_nil_r. repeat split; auto.
      intros f [|[|[]]]; discriminate.
Qed.

Lemma refresh_invariant (fuel : nat) (messages : list Message)
    (start : option PublicKey) (t t1 : list event)
    (messages1 : list Message) (o : outcome unit) :
  refresh fuel connection messages onNewMessage start t
  = Some (t1, messages1, o) ->
  exists added extra,
    messages1 = messages ++ added
    /\ t1 = t ++ extra
    /\ Forall (genuine publicKeyToName connection) added
    /\ count is_call extra = (length added * calls_per_entry)%nat
    /\ (forall f, In (EvCall f) extra -> onNewMessage = Some f).
Proof.
  destruct start as [message|]; [apply refresh_from_invariant|].
  destruct fuel as [|fuel]; [discriminate|].
  destruct (last messages) as [lastMessage|] eqn:Hlast.
  - destruct (read_result connection (m_publicKey lastMessage))
      as [lastMessageData|e] eqn:Hread.
    + rewrite (refresh_resume _ _ _ _ _ _ _ _ Hlast Hread).
      intros Hrun.
      destruct (refresh_from_invariant _ _ _ _ _ _ _ Hrun)
        as (added & extra & -> & -> & Hgenuine & Hcalls & Hsame).
      exists added, (EvGetAccountInfo (m_publicKey lastMessage) :: extra).
      rewrite <- app_assoc. repeat split; auto.
      intros f [|Hin]; [discriminate | now apply Hsame].
    + rewrite (refresh_resume_throw _ _ _ _ _ _ _ _ Hlast Hread).
      intros [= <- <- <-].
      exists [], [EvGetAccountInfo (m_publicKey lastMessage)].
      rewrite app_nil_r. repeat split; auto.
      intros f [|[]]; discriminate.
  - unfold refresh; simpl. rewrite Hlast. intros [= <- <- <-].
    exists [], []. rewrite !app_nil_r. repeat split; auto. intros f [].
Qed.

(** X5.  Whenever a refresh comes back, by returning or by failing, the
    view is the one it was given followed by new entries: nothing is
    removed, reordered or rewritten.  Every new entry comes from the
    ledger: its key is not the sentinel and names an existing account,
    author and text are decoded from that account, and the name is the
    one [publicKeyToName] gives the author. *)
Theorem refresh_only_appends (fuel : nat) (messages : list Message)
    (start : option PublicKey) (t t1 : list event)
    (messages1 : list Message) (o : outcome unit) :
  refresh fuel connection messages onNewMessage start t
  = Some (t1, messages1, o) ->
  exists added,
    messages1 = messages ++ added
    /\ Forall (genuine publicKeyToName connection) added.
Proof.
  intros Hrun.
  destruct (refresh_invariant _ _ _ _ _ _ _ Hrun)
    as (added & extra & Hview & _ & Hgenuine & _).
  eauto.
Qed.

(** X6.  Whenever a refresh comes back, the trace is the one it was given
    followed by new events, and among these the observer is called once
    for each entry appended, also when the refresh fails on a later read;
    without an observer nothing is called, and no other function is ever
    called. *)
Theorem observer_called_once_per_entry (fuel : nat)
    (messages : list Message) (start : option PublicKey)
    (t t1 : list event) (messages1 : list Message) (o : outcome unit) :
  refresh fuel connection messages onNewMessage start t
  = Some (t1, messages1, o) ->
  exists extra,
    t1 = t ++ extra
    /\ count is_call extra
       = match onNewMessage with
         | Some _ => (length messages1 - length messages)%nat
         | None => 0%nat
         end
    /\ forall f, In (EvCall f) extra -> onNewMessage = Some f.
Proof.
  intros Hrun.
  destruct (refresh_invariant _ _ _ _ _ _ _ Hrun)
    as (added & extra & -> & -> & _ & Hcalls & Hsame).
  exists extra. repeat split; auto.
  rewrite Hcalls, length_app. unfold calls_per_entry.
  destruct onNewMessage; lia.
Qed.

Lemma refresh_path (message stop : PublicKey)
    (l : list (PublicKey * MessageData)) :
  path connection message l stop ->
  forall fuel messages t,
    refresh (length l + fuel) connection messages onNewMessage
      (Some message) t
    = refresh fuel connection (messages ++ entries publicKeyToName l)
        onNewMessage (Some stop) (t ++ visits onNewMessage l).
Proof.
  induction 1 as [message|message messageData rest stop Hne Hread _ IH];
    intros fuel messages t.
  - simpl. now rewrite !app_nil_r.
  - cbn [length Nat.add].
    rewrite (refresh_step _ _ _ _ _ _ _ _ Hne Hread), IH.
    simpl. now rewrite <- !app_assoc.
Qed.

(** X7.  A pointer to an account that does not exist stops the refresh
    with the [TypeError] of the failed read.  What was loaded on the way
    stays in the view, and the observer has been called for it; the read
    of the missing account is the last event.  The same holds when the
    refresh resumes from a view whose last entry no longer names an
    account: the view is left as it was. *)
Theorem refresh_stops_at_missing_account :
  (forall (message stop : PublicKey) (l : list (PublicKey * MessageData))
          (messages : list Message) (t : list event) (fuel : nat),
      path connection message l stop ->
      stop <> emptyMessage ->
      connection !! stop = None ->
      (length l < fuel)%nat ->
      refresh fuel connection messages onNewMessage (Some message) t
      = Some (t ++ visits onNewMessage l
                ++ [EvLoadingMessage stop; EvGetAccountInfo stop],
              messages ++ entries publicKeyToName l,
              Throw (TypeError "Cannot read property 'data' of null")))
  /\ (forall (messages : list Message) (lastMessage : Message)
             (t : list event) (fuel : nat),
        last messages = Some lastMessage ->
        connection !! m_publicKey lastMessage = None ->
        refresh (S fuel) connection messages onNewMessage None t
        = Some (t ++ [EvGetAccountInfo (m_publicKey lastMessage)],
                messages,
                Throw (TypeError "Cannot read property 'data' of null"))).
Proof.
  split.
  - intros message stop l messages t fuel Hpath Hstop Hmissing Hfuel.
    replace fuel with (length l + S (fuel - S (length l)))%nat by lia.
    rewrite (refresh_path _ _ _ Hpath).
    rewrite (refresh_throw _ _ _ _ _ _ _ _ Hstop (read_result_None _ _ Hmissing)).
    now rewrite <- app_assoc.
  - intros messages lastMessage t fuel Hlast Hmissing.
    apply refresh_resume_throw; [exact Hlast|].
    now apply read_result_None.
Qed.

Lemma count_read_visits (l : list (PublicKey * MessageData)) :
  count is_read (visits onNewMessage l) = length l.
Proof.
  induction l as [|[message messageData] l IH]; [reflexivity|].
  cbn [visits flat_map]. fold (visits onNewMessage l).
  rewrite count_app, IH. unfold visit, notify.
  now destruct onNewMessage.
Qed.

(** X8.  Over a chain of any length that ends at the sentinel, a refresh
    from its head returns with the entries of the chain appended in chain
    order to whatever the view held (entries already in the view are not
    recognised: they are appended again).  It reads each account of the
    chain once, in order, and nothing for the sentinel. *)
Theorem refresh_follows_chain (head : PublicKey)
    (l : list (PublicKey * MessageData)) (messages : list Message)
    (t : list event) (fuel : nat) :
  chain connection head l ->
  (length l < fuel)%nat ->
  refresh fuel connection messages onNewMessage (Some head) t
  = Some (t ++ visits onNewMessage l,
          messages ++ entries publicKeyToName l, Return tt)
  /\ map m_publicKey (entries publicKeyToName l) = map fst l
  /\ count is_read (visits onNewMessage l) = length l.
Proof.
  intros Hchain Hfuel. split; [|split].
  - now apply refresh_chain.
  - unfold entries. rewrite map_map. apply map_ext. now intros [].
  - apply count_read_visits.
Qed.
End SynchronizerInvariants.

Lemma dangling_path :
  path dangling 1
    [(1, {| nextMessage := 2; from := 9; programId := 7; text := "first" |})]
    2.
Proof.
  apply path_hop; [discriminate | vm_compute; reflexivity | apply path_here].
Qed.

Lemma refresh_only_appends_witness :
  refreshMessageFeed name_of 5 dangling [] (Some 5%nat) (Some 1) []
  = Some ([ EvLoadingMessage 1; EvGetAccountInfo 1; EvCall 5%nat;
            EvLoadingMessage 2; EvGetAccountInfo 2 ],
          [ {| m_publicKey := 1; m_from := 9; m_name := "alice";
               m_text := "first" |} ],
          Throw (TypeError "Cannot read property 'data' of null"))
  /\ exists added,
       [ {| m_publicKey := 1; m_from := 9; m_name := "alice";
            m_text := "first" |} ] = [] ++ added
       /\ Forall (genuine name_of dangling) added.
Proof.
  split; [vm_compute; reflexivity|].
  apply (refresh_only_appends name_of dangling (Some 5%nat) 5 [] (Some 1) []
           [ EvLoadingMessage 1; EvGetAccountInfo 1; EvCall 5%nat;
             EvLoadingMessage 2; EvGetAccountInfo 2 ]
           [ {| m_publicKey := 1; m_from := 9; m_name := "alice";
                m_text := "first" |} ]
           (Throw (TypeError "Cannot read property 'data' of null"))).
  vm_compute; reflexivity.
Defined.

Lemma observer_called_once_per_entry_witness :
  refreshMessageFeed name_of 5 dangling [] (Some 5%nat) (Some 1) []
  = Some ([ EvLoadingMessage 1; EvGetAccountInfo 1; EvCall 5%nat;
            EvLoadingMessage 2; EvGetAccountInfo 2 ],
          [ {| m_publicKey := 1; m_from := 9; m_name := "alice";
               m_text := "first" |} ],
          Throw (TypeError "Cannot read property 'data' of null"))
  /\ exists extra,
       [ EvLoadingMessage 1; EvGetAccountInfo 1; EvCall 5%nat;
         EvLoadingMessage 2; EvGetAccountInfo 2 ] = [] ++ extra
       /\ count is_call extra = (1 - 0)%nat
       /\ forall f, In (EvCall f) extra -> Some 5%nat = Some f.
Proof.
  split; [vm_compute; reflexivity|].
  apply (observer_called_once_per_entry name_of dangling (Some 5%nat) 5 []
           (Some 1) []
           [ EvLoadingMessage 1; EvGetAccountInfo 1; EvCall 5%nat;
             EvLoadingMessage 2; EvGetAccountInfo 2 ]
           [ {| m_publicKey := 1; m_from := 9; m_name := "alice";
                m_text := "first" |} ]
           (Throw (TypeError "Cannot read property 'data' of null"))).
  vm_compute; reflexivity.
Defined.

Lemma refresh_stops_at_missing_account_witness :
  path dangling 1
    [(1, {| nextMessage := 2; from := 9; programId := 7; text := "first" |})]
    2
  /\ 2 <> emptyMessage
  /\ dangling !! 2 = None
  /\ refreshMessageFeed name_of 2 dangling [] None (Some 1) []
     = Some ([ EvLoadingMessage 1; EvGetAccountInfo 1;
               EvLoadingMessage 2; EvGetAccountInfo 2 ],
             [ {| m_publicKey := 1; m_from := 9; m_name := "alice";
                  m_text := "first" |} ],
             Throw (TypeError "Cannot read property 'data' of null")).
Proof.
  split; [exact dangling_path|].
  split; [discriminate|].
  split; [reflexivity|].
  apply (proj1 (refresh_stops_at_missing_account name_of dangling None)
           1 2
           [(1, {| nextMessage := 2; from := 9; programId := 7;
                   text := "first" |})]
           [] [] 2%nat);
    [exact dangling_path | discriminate | reflexivity | simpl; lia].
Defined.

Lemma refresh_follows_chain_witness :
  chain three_messages 1 three_chain
  /\ (length three_chain < 4)%nat
  /\ refreshMessageFeed name_of 4 three_messages
       (entries name_of three_chain) None (Some 1) []
     = Some ([] ++ visits None three_chain,
             entries name_of three_chain ++ entries name_of three_chain,
             Return tt)
  /\ map m_publicKey (entries name_of three_chain) = map fst three_chain
  /\ count is_read (visits None three_chain) = length three_chain.
Proof.
  split; [exact three_messages_chain|].
  split; [simpl; lia|].
  apply (refresh_follows_chain name_of three_messages None 1 three_chain
           (entries name_of three_chain) [] 4);
    [exact three_messages_chain | simpl; lia].
Defined.

(** ** The composer: [createUser], [postMessage], signers and programs *)

Section ClientFacts.
Variable newSystemAccountWithAirdrop : Z -> outcome Account.
Variable new_Account : nat -> Account.
Variable sendAndConfirmTransaction :
  Transaction -> list Account -> outcome TransactionSignature.

Local Abbreviation signer a := {| pubkey := publicKey a; isSigner := true |}.
Local Abbreviation reference k := {| pubkey := k; isSigner := false |}.

(** X9.  Once the payer is funded (with 110 lamports), [createUser]
    submits two instructions, signed by the payer, the new user account
    and the anchoring message account: the allocation of 33 bytes for the
    new account, owned by the program, and the initialization, which both
    the new account and the anchor sign.  These are the very instructions
    [postMessageWithProgramId] puts between the allocation of the message
    account and the post when it is given no user.  The new account is
    returned when the submission succeeds, and the error of the submission
    is raised otherwise. *)
Theorem createUser_submits (program : PublicKey)
    (firstMessageAccount payerAccount : Account) :
  newSystemAccountWithAirdrop 110%Z = Return payerAccount ->
  let userAccount := new_Account 0 in
  let request :=
    createUser_compose payerAccount userAccount firstMessageAccount program in
  createUser newSystemAccountWithAirdrop new_Account
    sendAndConfirmTransaction program firstMessageAccount
  = match sendAndConfirmTransaction request.1 request.2 with
    | Return _ => Return userAccount
    | Throw e => Throw e
    end
  /\ instructions request.1
     = [ SystemProgram_createAccount (publicKey payerAccount)
           (publicKey userAccount) 1 33%nat program;
         Instruction [signer userAccount; signer firstMessageAccount]
           program None ]
  /\ request.2 = [payerAccount; userAccount; firstMessageAccount]
  /\ forall text previous target,
       exists allocation post,
         instructions
           (postMessageWithProgramId_compose payerAccount userAccount
              program None firstMessageAccount text previous target).1
         = allocation :: instructions request.1 ++ [post].
Proof.
  intros Hfund. cbv zeta.
  split; [|split; [reflexivity|split; [reflexivity|]]].
  - unfold createUser. change (10 + 100)%Z with 110%Z. rewrite Hfund.
    reflexivity.
  - intros text previous target. rewrite compose_new_user.
    eexists _, _. reflexivity.
Qed.

(** X10.  [postMessage] first reads the previous message.  When that
    account does not exist the call fails with the [TypeError] of the
    read, whatever the funding and the submission would do: nothing is
    funded and nothing is submitted.  When it exists, the program of the
    transaction is the owner of that account: the message account, fresh
    and of 96 bytes plus the text, is allocated to it and the post is
    addressed to it, with the previous message always among the keys, as
    an account that does not sign. *)
Theorem postMessage_uses_owner_of_previous
    (connection : gmap N AccountInfo) (userAccount : Account)
    (text : string) (previousMessage : PublicKey)
    (userToBan : option PublicKey) (t : list event) :
  let call :=
    postMessage newSystemAccountWithAirdrop new_Account
      sendAndConfirmTransaction connection userAccount text previousMessage
      userToBan t in
  (connection !! previousMessage = None ->
   call = (t ++ [EvGetAccountInfo previousMessage],
           Throw (TypeError "Cannot read property 'data' of null")))
  /\ (forall info,
        connection !! previousMessage = Some info ->
        call
        = (t ++ [EvGetAccountInfo previousMessage],
           match newSystemAccountWithAirdrop 200%Z with
           | Throw e => Throw e
           | Return payerAccount =>
               sendAndConfirmTransaction
                 {| instructions :=
                      [ SystemProgram_createAccount (publicKey payerAccount)
                          (publicKey (new_Account 0)) 1
                          (96 + String.length text)%nat (owner info);
                        Instruction
                          ([ signer userAccount; signer (new_Account 0);
                             reference previousMessage ]
                             ++ match userToBan with
                                | Some target => [reference target]
                                | None => []
                                end)
                          (owner info)
                          (Some (String.list_byte_of_string text)) ] |}
                 [payerAccount; userAccount; new_Account 0]
           end)).
Proof.
  cbv zeta. unfold postMessage, bind, lift.
  rewrite readMessage_run. split.
  - intros Hmissing. now rewrite (read_result_None _ _ Hmissing).
  - intros info Hinfo. rewrite (read_result_Some _ _ _ Hinfo).
    cbn [programId]. f_equal.
    rewrite postMessageWithProgramId_submits.
    destruct (newSystemAccountWithAirdrop 200%Z) as [payerAccount|e];
      [|reflexivity].
    cbv zeta. rewrite compose_existing_user, <- length_list_byte_of_string.
    now destruct userToBan.
Qed.
End ClientFacts.

Ltac each_instruction :=
  repeat (apply List.Forall_cons;
          [split; [reflexivity
                  | first [left; reflexivity | right; reflexivity]] |]);
  apply List.Forall_nil.

(** X11.  In every transaction the client composes (a post of either
    revision, a user creation) the accounts that have to sign are exactly
    those whose [Account] is handed to [sendAndConfirmTransaction]: each
    key flagged as signer and each payer of an allocation is the key of a
    signer handed over, and each signer handed over is needed. *)
Theorem signers_are_the_flagged_keys (payerAccount fresh : Account)
    (program : PublicKey) (userAccount : option Account)
    (messageAccount firstMessageAccount : Account) (text : string)
    (previous target : option PublicKey) (k : PublicKey) :
  let covers (request : Transaction * list Account) :=
    In k (flat_map signer_keys (instructions request.1))
    <-> In k (map publicKey request.2) in
  covers (postMessageWithProgramId_compose payerAccount fresh program
            userAccount messageAccount text previous target)
  /\ covers (createUser_compose payerAccount fresh firstMessageAccount
               program)
  /\ covers (Legacy.postMessageWithProgramId_compose payerAccount program
               messageAccount text previous).
Proof.
  cbv zeta. split; [|split].
  - destruct userAccount as [u|];
      rewrite ?compose_existing_user, ?compose_new_user;
      destruct previous, target; cbn; intuition congruence.
  - cbn. intuition congruence.
  - destruct previous; cbn; intuition congruence.
Qed.

(** X12.  Every instruction of a composed transaction names the program
    given: each new account is allocated to it, with one lamport, and each
    other instruction is addressed to it.  The post comes last and carries
    the bytes of the text, and the first instruction allocates the message
    account, paid by the payer. *)
Theorem instructions_name_the_program (payerAccount fresh : Account)
    (program : PublicKey) (userAccount : option Account)
    (messageAccount firstMessageAccount : Account) (text : string)
    (previous target : option PublicKey) :
  let uniform (request : Transaction * list Account) :=
    Forall (fun i => instruction_program i = program
                     /\ (instruction_lamports i = None
                         \/ instruction_lamports i = Some 1%Z))
      (instructions request.1) in
  let post := postMessageWithProgramId_compose payerAccount fresh program
                userAccount messageAccount text previous target in
  uniform post
  /\ uniform (createUser_compose payerAccount fresh firstMessageAccount
                program)
  /\ uniform (Legacy.postMessageWithProgramId_compose payerAccount program
                messageAccount text previous)
  /\ (exists keys,
        last (instructions post.1)
        = Some (Instruction keys program
                  (Some (String.list_byte_of_string text))))
  /\ (exists space,
        head (instructions post.1)
        = Some (SystemProgram_createAccount (publicKey payerAccount)
                  (publicKey messageAccount) 1 space program)).
Proof.
  cbv zeta. split; [|split; [|split; [|split]]].
  - destruct userAccount as [u|];
      rewrite ?compose_existing_user, ?compose_new_user; each_instruction.
  - cbn. each_instruction.
  - destruct previous; cbn; each_instruction.
  - destruct userAccount as [u|];
      rewrite ?compose_existing_user, ?compose_new_user;
      eexists; reflexivity.
  - destruct userAccount as [u|];
      rewrite ?compose_existing_user, ?compose_new_user;
      eexists; reflexivity.
Qed.

Lemma createUser_submits_witness :
  (fun _ : Z => Return {| publicKey := 100 |}) 110%Z
  = Return {| publicKey := 100 |}
  /\ createUser (fun _ => Return {| publicKey := 100 |})
       (fun n => {| publicKey := 200 + N.of_nat n |})
       (fun _ _ => Return "signature") 7 {| publicKey := 1 |}
     = Return {| publicKey := 200 |}.
Proof.
  split; [reflexivity|].
  apply (proj1 (createUser_submits (fun _ => Return {| publicKey := 100 |})
                  (fun n => {| publicKey := 200 + N.of_nat n |})
                  (fun _ _ => Return "signature") 7 {| publicKey := 1 |}
                  {| publicKey := 100 |} eq_refl)).
Defined.

Lemma postMessage_uses_owner_of_previous_witness :
  three_messages !! 3 = Some (message_account 7 0 9 9 "third")
  /\ postMessage (fun _ => Return {| publicKey := 100 |})
       (fun n => {| publicKey := 200 + N.of_nat n |})
       (fun transaction _ =>
          if bool_decide
               (Forall (fun i => instruction_program i = 7)
                  (instructions transaction))
          then Return "signature" else Throw (Error "wrong program"))
       three_messages {| publicKey := 9 |} "fourth" 3 None []
     = ([EvGetAccountInfo 3], Return "signature")
  /\ dangling !! 2 = None
  /\ postMessage (fun _ => Return {| publicKey := 100 |})
       (fun n => {| publicKey := 200 + N.of_nat n |})
       (fun _ _ => Return "signature")
       dangling {| publicKey := 9 |} "second" 2 None []
     = ([EvGetAccountInfo 2],
        Throw (TypeError "Cannot read property 'data' of null")).
Proof.
  split; [reflexivity|].
  split.
  - rewrite (proj2 (postMessage_uses_owner_of_previous
                      (fun _ => Return {| publicKey := 100 |})
                      (fun n => {| publicKey := 200 + N.of_nat n |})
                      _ three_messages {| publicKey := 9 |} "fourth" 3 None [])
               (message_account 7 0 9 9 "third") eq_refl).
    reflexivity.
  - split; [reflexivity|].
    apply (proj1 (postMessage_uses_owner_of_previous
                    (fun _ => Return {| publicKey := 100 |})
                    (fun n => {| publicKey := 200 + N.of_nat n |})
                    (fun _ _ => Return "signature")
                    dangling {| publicKey := 9 |} "second" 2 None [])).
    reflexivity.
Defined.

(** ** The poller, in general *)

Section PollerInGeneral.
Variable fetch : string -> nat -> FetchResult.
Variable PublicKey_of_value : JsValue -> outcome PublicKey.
Variable configUrl : string.

Local Abbreviation attempt := (try_fetch fetch PublicKey_of_value configUrl).
Local Abbreviation poll := (getFirstMessage fetch PublicKey_of_value).
Local Abbreviation events := (poll_trace fetch PublicKey_of_value configUrl).

Lemma events_snoc (n k : nat) :
  events n (S k)
  = events n k ++ attempt_events configUrl (attempt (n + k)%nat).
Proof.
  unfold poll_trace. rewrite seq_S, flat_map_app. simpl.
  now rewrite app_nil_r.
Qed.

Lemma count_fetch_events (n k : nat) : count is_fetch (events n k) = k.
Proof.
  induction k as [|k IH]; [reflexivity|].
  rewrite events_snoc, count_app, IH.
  unfold attempt_events.
  destruct (attempt (n + k)%nat) as [[metadata|]|err]; cbn; lia.
Qed.

Lemma count_sleep_events (n k : nat) :
  (forall i, (n <= i < n + k)%nat -> ready (attempt i) = false) ->
  count is_sleep (events n k) = k
  /\ Forall (fun e => is_sleep e = true -> e = EvSleep 1000) (events n k).
Proof.
  induction k as [|k IH]; intros Hwait; [split; [reflexivity | constructor]|].
  destruct IH as [IHcount IHall]; [intros i Hi; apply Hwait; lia|].
  rewrite events_snoc, count_app, IHcount.
  assert (Hlast : ready (attempt (n + k)%nat) = false) by (apply Hwait; lia).
  unfold attempt_events.
  destruct (attempt (n + k)%nat) as [[metadata|]|err]; try discriminate.
  - split; [cbn; lia|].
    apply Forall_app. split; [exact IHall|].
    repeat constructor; discriminate.
  - split; [cbn; lia|].
    apply Forall_app. split; [exact IHall|].
    repeat constructor; discriminate.
Qed.

(** X13.  When the first ready response is the one to request [n + k],
    the poller returns its metadata after [k + 1] requests and [k] sleeps,
    each of 1000 ms, given [k + 1] iterations or more; the trace is that
    of the [k] failed attempts, in order, followed by the last fetch. *)
Theorem poller_returns_at_first_ready (k n : nat) (t : list event)
    (fuel : nat) (metadata : FeedMetadata) :
  (forall i, (n <= i < n + k)%nat -> ready (attempt i) = false) ->
  attempt (n + k)%nat = Return (Some metadata) ->
  (k < fuel)%nat ->
  poll fuel configUrl n t
  = Some (S (n + k), t ++ events n k ++ [EvFetch configUrl],
          Return metadata)
  /\ count is_fetch (events n k ++ [EvFetch configUrl]) = S k
  /\ count is_sleep (events n k ++ [EvFetch configUrl]) = k
  /\ Forall (fun e => is_sleep e = true -> e = EvSleep 1000) (events n k).
Proof.
  intros Hwait Hready Hfuel.
  destruct (count_sleep_events n k Hwait) as [Hsleeps Hms].
  split; [|split; [|split]].
  - rewrite (poll_converges fetch PublicKey_of_value configUrl k n t fuel
               metadata Hwait Hready Hfuel).
    now rewrite events_snoc, Hready.
  - rewrite count_app, count_fetch_events. cbn. lia.
  - rewrite count_app, Hsleeps. cbn. lia.
  - exact Hms.
Qed.

(** X14.  There is no limit on the attempts: while no response is ready
    the poller neither returns nor fails, however many iterations it is
    given. *)
Theorem poller_never_gives_up (n : nat) :
  (forall i, (n <= i)%nat -> ready (attempt i) = false) ->
  forall fuel t, poll fuel configUrl n t = None.
Proof.
  intros Hwait fuel. revert n Hwait.
  induction fuel as [|fuel IH]; intros n Hwait t; [reflexivity|].
  rewrite poll_retry by (apply Hwait; lia).
  apply IH. intros i Hi. apply Hwait. lia.
Qed.

(** X15.  A response that is not loading but cannot be used is not
    returned and raises nothing: when [firstMessage] or [programId] is
    refused by [new PublicKey], or the body is [null], the error is
    logged, and after a sleep of 1000 ms the next request is made. *)
Theorem poller_retries_on_unusable_response (fuel n : nat) (t : list event)
    (config : JsValue) :
  fetch configUrl n = JsonBody config ->
  let retry err :=
    poll (S fuel) configUrl n t
    = poll fuel configUrl (S n)
        (t ++ [EvFetch configUrl; EvConsoleError err; EvSleep 1000]) in
  (forall loading v err,
      get config "loading" = Return loading ->
      truthy loading = false ->
      get config "firstMessage" = Return v ->
      PublicKey_of_value v = Throw err ->
      retry err)
  /\ (forall loading v1 first v2 err,
        get config "loading" = Return loading ->
        truthy loading = false ->
        get config "firstMessage" = Return v1 ->
        PublicKey_of_value v1 = Return first ->
        get config "programId" = Return v2 ->
        PublicKey_of_value v2 = Throw err ->
        retry err)
  /\ (config = JNull ->
      retry (TypeError "Cannot read property 'loading' of null")).
Proof.
  intros Hfetch. cbv zeta.
  assert (Hretry : forall err, attempt n = Throw err ->
            poll (S fuel) configUrl n t
            = poll fuel configUrl (S n)
                (t ++ [EvFetch configUrl; EvConsoleError err; EvSleep 1000])).
  { intros err Herr. rewrite poll_retry; now rewrite Herr. }
  split; [|split].
  - intros loading v err Hloading Hfalse Hv Herr. apply Hretry.
    unfold try_fetch. now rewrite Hfetch, Hloading, Hfalse, Hv, Herr.
  - intros loading v1 first v2 err Hloading Hfalse Hv1 Hfirst Hv2 Herr.
    apply Hretry. unfold try_fetch.
    rewrite Hfetch, Hloading, Hfalse, Hv1, Hfirst; simpl.
    destruct (get config "loginMethod") as [method|e] eqn:Hmethod.
    + now rewrite Hv2, Herr.
    + destruct config; discriminate.
  - intros ->. apply Hretry. unfold try_fetch. now rewrite Hfetch.
Qed.

(** X16.  The poller of the earlier revision accepts every response the
    current one accepts, with the same first message and url, and hands
    back [programId] as it came; it also accepts a response whose
    [programId] is refused by [new PublicKey], which the current one logs
    and retries. *)
Theorem earlier_poller_is_laxer (n : nat) :
  (forall metadata,
      attempt n = Return (Some metadata) ->
      exists program,
        Legacy.try_fetch fetch PublicKey_of_value configUrl n
        = Return (Some {| Legacy.url := url metadata;
                          Legacy.firstMessage := firstMessage metadata;
                          Legacy.programId := program |})
        /\ PublicKey_of_value program = Return (feedProgramId metadata))
  /\ (forall earlier err,
        Legacy.try_fetch fetch PublicKey_of_value configUrl n
        = Return (Some earlier) ->
        PublicKey_of_value (Legacy.programId earlier) = Throw err ->
        attempt n = Throw err).
Proof.
  unfold try_fetch, Legacy.try_fetch.
  destruct (fetch configUrl n) as [e|e|config]; [split; intros; discriminate..|].
  destruct (get config "loading") as [loading|e] eqn:Hloading;
    [|split; intros; discriminate].
  destruct (truthy loading); simpl; [split; intros; discriminate|].
  destruct (get config "url") as [u|e] eqn:Hu;
    [|destruct config; discriminate].
  destruct (get config "firstMessage") as [v1|e] eqn:Hv1;
    [|destruct config; discriminate].
  destruct (PublicKey_of_value v1) as [first|e]; [|split; intros; discriminate].
  destruct (get config "loginMethod") as [method|e] eqn:Hmethod;
    [|destruct config; discriminate].
  destruct (get config "programId") as [v2|e] eqn:Hv2;
    [|destruct config; discriminate].
  split.
  - intros metadata.
    destruct (PublicKey_of_value v2) as [program|e] eqn:Hprogram;
      [|discriminate].
    intros [= <-]. exists v2. split; [reflexivity | exact Hprogram].
  - intros earlier err [= <-]. simpl. now intros ->.
Qed.
End PollerInGeneral.

(** ** The poller against the configuration endpoint of the server *)

(** X17.  What the server answers on [/config.json] drives the poller as
    intended.  While the feed is loading ([meta] is [null]) the response
    makes the poller wait.  Once it is loaded, and provided that
    [new PublicKey] reads back what [toString] printed for the two keys,
    the poller accepts the response and returns the key of the first
    message, the program, the login method and the url of the server; the
    wallet url is not passed on. *)
Theorem poller_reads_server_config (toString : PublicKey -> string)
    (serverLoginMethod serverUrl walletUrl : string)
    (fetch : string -> nat -> FetchResult)
    (PublicKey_of_value : JsValue -> outcome PublicKey)
    (configUrl : string) (n : nat) (meta : option FeedMeta) :
  fetch configUrl n
  = JsonBody (config_response toString serverLoginMethod serverUrl walletUrl
                meta) ->
  match meta with
  | None => try_fetch fetch PublicKey_of_value configUrl n = Return None
  | Some m =>
      PublicKey_of_value
        (JString (toString (publicKey (meta_firstMessage m))))
      = Return (publicKey (meta_firstMessage m)) ->
      PublicKey_of_value (JString (toString (meta_programId m)))
      = Return (meta_programId m) ->
      try_fetch fetch PublicKey_of_value configUrl n
      = Return (Some {| firstMessage := publicKey (meta_firstMessage m);
                        loginMethod := JString serverLoginMethod;
                        feedProgramId := meta_programId m;
                        url := JString serverUrl |})
  end.
Proof.
  intros Hfetch. unfold try_fetch. rewrite Hfetch.
  destruct meta as [m|]; [|reflexivity].
  intros Hfirst Hprogram. cbn. now rewrite Hfirst, Hprogram.
Qed.

Lemma scripted_waits (i : nat) :
  (0 <= i < 0 + 3)%nat ->
  ready (try_fetch scripted key_of_hex "http://localhost:8081/config.json" i)
  = false.
Proof.
  intros Hi.
  assert (i = 0 \/ i = 1 \/ i = 2)%nat as [-> | [-> | ->]] by lia;
    reflexivity.
Qed.

Lemma poller_returns_at_first_ready_witness :
  (forall i, (0 <= i < 0 + 3)%nat ->
     ready (try_fetch scripted key_of_hex
              "http://localhost:8081/config.json" i) = false)
  /\ (3 < 7)%nat
  /\ getFirstMessage scripted key_of_hex 7
       "http://localhost:8081/config.json" 0 []
     = Some (4%nat,
             [] ++ poll_trace scripted key_of_hex
                     "http://localhost:8081/config.json" 0 3
                ++ [EvFetch "http://localhost:8081/config.json"],
             Return {| firstMessage := 1;
                       loginMethod := JString "local";
                       feedProgramId := 7;
                       url := JString "http://localhost:8899" |}).
Proof.
  split; [exact scripted_waits|].
  split; [lia|].
  apply (poller_returns_at_first_ready scripted key_of_hex
           "http://localhost:8081/config.json" 3 0 [] 7
           {| firstMessage := 1; loginMethod := JString "local";
              feedProgramId := 7; url := JString "http://localhost:8899" |});
    [exact scripted_waits | reflexivity | lia].
Defined.

Lemma poller_never_gives_up_witness :
  (forall i, (0 <= i)%nat ->
     ready (try_fetch (fun _ _ => JsonBody loading_config) key_of_hex
              "http://localhost:8081/config.json" i) = false)
  /\ getFirstMessage (fun _ _ => JsonBody loading_config) key_of_hex 1000
       "http://localhost:8081/config.json" 0 []
     = None.
Proof.
  split; [reflexivity|].
  apply (poller_never_gives_up (fun _ _ => JsonBody loading_config)
           key_of_hex "http://localhost:8081/config.json" 0).
  reflexivity.
Defined.

Lemma poller_retries_on_unusable_response_witness :
  getFirstMessage
    (fun _ n =>
       match n with
       | O => JsonBody (JObject [ ("loading", JBool false);
                                  ("firstMessage", JNull) ])
       | S _ => JsonBody ready_config
       end)
    key_of_hex 2 "http://localhost:8081/config.json" 0 []
  = Some (2%nat,
          [ EvFetch "http://localhost:8081/config.json";
            EvConsoleError (Error "Invalid public key input");
            EvSleep 1000;
            EvFetch "http://localhost:8081/config.json" ],
          Return {| firstMessage := 1;
                    loginMethod := JString "local";
                    feedProgramId := 7;
                    url := JString "http://localhost:8899" |}).
Proof.
  rewrite (proj1 (poller_retries_on_unusable_response _ key_of_hex
                    "http://localhost:8081/config.json" 1 0 []
                    (JObject [ ("loading", JBool false);
                               ("firstMessage", JNull) ])
                    eq_refl)
             (JBool false) JNull (Error "Invalid public key input")
             eq_refl eq_refl eq_refl eq_refl).
  reflexivity.
Defined.

Lemma earlier_poller_is_laxer_witness :
  try_fetch scripted key_of_hex "http://localhost:8081/config.json" 3
  = Return (Some {| firstMessage := 1;
                    loginMethod := JString "local";
                    feedProgramId := 7;
                    url := JString "http://localhost:8899" |})
  /\ exists program,
       Legacy.try_fetch scripted key_of_hex
         "http://localhost:8081/config.json" 3
       = Return (Some {| Legacy.url := JString "http://localhost:8899";
                         Legacy.firstMessage := 1;
                         Legacy.programId := program |})
       /\ key_of_hex program = Return 7.
Proof.
  split; [reflexivity|].
  apply (proj1 (earlier_poller_is_laxer scripted key_of_hex
                  "http://localhost:8081/config.json" 3)
           {| firstMessage := 1; loginMethod := JString "local";
              feedProgramId := 7; url := JString "http://localhost:8899" |}).
  reflexivity.
Defined.

Lemma poller_reads_server_config_witness :
  key_of_hex (JString (hex_of_key 1)) = Return 1
  /\ key_of_hex (JString (hex_of_key 7)) = Return 7
  /\ try_fetch
       (fun _ _ =>
          JsonBody
            (config_response hex_of_key "local" "http://localhost:8899"
               "http://localhost:8080/wallet"
               (Some {| meta_firstMessage := {| publicKey := 1 |};
                        meta_programId := 7 |})))
       key_of_hex "http://localhost:8081/config.json" 0
     = Return (Some {| firstMessage := 1;
                       loginMethod := JString "local";
                       feedProgramId := 7;
                       url := JString "http://localhost:8899" |}).
Proof.
  split; [reflexivity|].
  split; [reflexivity|].
  apply (poller_reads_server_config hex_of_key "local"
           "http://localhost:8899" "http://localhost:8080/wallet"
           (fun _ _ =>
              JsonBody
                (config_response hex_of_key "local" "http://localhost:8899"
                   "http://localhost:8080/wallet"
                   (Some {| meta_firstMessage := {| publicKey := 1 |};
                            meta_programId := 7 |})))
           key_of_hex "http://localhost:8081/config.json" 0
           (Some {| meta_firstMessage := {| publicKey := 1 |};
                    meta_programId := 7 |})
           eq_refl);
    reflexivity.
Defined.
